(** * sphinxcontrib.typst_math: the [typst-math] directive

    A shallow embedding of [TypstMathDirective.run]
    (src/sphinxcontrib/typst_math/__init__.py) and of the platform
    functions it calls: [str.join], [str.encode], [hashlib.sha1],
    [pathlib.Path], [shutil.which] and [subprocess.Popen].

    Python values are modelled as follows.
    - a [str] is the list of its code points ([pystr]);
    - a [bytes] is a list of integers in the range 0..255;
    - a [Path] is an absolute POSIX path, held as the list of its
      components below the root (Sphinx resolves [builder.outdir] to an
      absolute path before any directive runs);
    - the file system is a finite map from paths to file kinds;
    - a call of [run] is a computation in a state-and-exception monad
      whose state is the file system together with the trace of calls
      made to the operating system. *)

From Stdlib Require Import ZArith NArith List String Ascii Lia.
From stdpp Require Import base option list gmap strings finite.
Import ListNotations.

Local Open Scope Z_scope.

(** ** Python strings and bytes *)

Abbreviation pystr := (list N).
Abbreviation bytes := (list Z).

(** A string literal of the source, as code points. *)
Definition lit (s : string) : pystr :=
  List.map N_of_ascii (list_ascii_of_string s).

(** [sep.join(items)] *)
Fixpoint join (sep : pystr) (items : list pystr) : pystr :=
  match items with
  | [] => []
  | [x] => x
  | x :: rest => x ++ sep ++ join sep rest
  end.

(** [str.encode()]: UTF-8 with the [strict] error handler.  A lone
    surrogate has no encoding ([UnicodeEncodeError], here [None]); a
    number above 0x10FFFF is not a code point at all. *)
Definition encode_char (c : N) : option bytes :=
  let z := Z.of_N c in
  if z <? 0x80 then Some [z]
  else if z <? 0x800 then
    Some [Z.lor 0xC0 (Z.shiftr z 6); Z.lor 0x80 (Z.land z 0x3F)]
  else if z <? 0x10000 then
    if (0xD800 <=? z) && (z <=? 0xDFFF) then None
    else Some [Z.lor 0xE0 (Z.shiftr z 12);
               Z.lor 0x80 (Z.land (Z.shiftr z 6) 0x3F);
               Z.lor 0x80 (Z.land z 0x3F)]
  else if z <? 0x110000 then
    Some [Z.lor 0xF0 (Z.shiftr z 18);
          Z.lor 0x80 (Z.land (Z.shiftr z 12) 0x3F);
          Z.lor 0x80 (Z.land (Z.shiftr z 6) 0x3F);
          Z.lor 0x80 (Z.land z 0x3F)]
  else None.

Fixpoint encode (s : pystr) : option bytes :=
  match s with
  | [] => Some []
  | c :: rest =>
      match encode_char c, encode rest with
      | Some b, Some bs => Some (b ++ bs)
      | _, _ => None
      end
  end.

(** ** hashlib.sha1 (FIPS 180-4, section 6.1) *)

Module SHA1.

Definition w32 (x : Z) : Z := x mod 2 ^ 32.

Definition rotl (n x : Z) : Z :=
  w32 (Z.lor (Z.shiftl x n) (Z.shiftr x (32 - n))).

Definition add32 (x y : Z) : Z := w32 (x + y).

Definition not32 (x : Z) : Z := Z.lxor x 0xFFFFFFFF.

(** The round function and constant of round [t]. *)
Definition f (t : nat) (b c d : Z) : Z :=
  if (t <? 20)%nat then Z.lor (Z.land b c) (Z.land (not32 b) d)
  else if (t <? 40)%nat then Z.lxor (Z.lxor b c) d
  else if (t <? 60)%nat then
    Z.lor (Z.lor (Z.land b c) (Z.land b d)) (Z.land c d)
  else Z.lxor (Z.lxor b c) d.

Definition K (t : nat) : Z :=
  if (t <? 20)%nat then 0x5A827999
  else if (t <? 40)%nat then 0x6ED9EBA1
  else if (t <? 60)%nat then 0x8F1BBCDC
  else 0xCA62C1D6.

(** Big-endian bytes of a number, [n] of them. *)
Fixpoint be_bytes (n : nat) (x : Z) : bytes :=
  match n with
  | O => []
  | S n' => Z.shiftr x (8 * Z.of_nat n') mod 256 :: be_bytes n' x
  end.

(** Section 5.1.1: the bit 1, zero bits up to 448 mod 512, then the
    length in bits as a 64-bit number. *)
Definition pad (msg : bytes) : bytes :=
  let len := Z.of_nat (length msg) in
  msg ++ [0x80] ++ List.repeat 0 (Z.to_nat ((55 - len) mod 64))
      ++ be_bytes 8 (8 * len).

(** Four bytes at a time, most significant first. *)
Fixpoint words (bs : bytes) : list Z :=
  match bs with
  | b0 :: b1 :: b2 :: b3 :: rest =>
      (((b0 * 256 + b1) * 256 + b2) * 256 + b3) :: words rest
  | _ => []
  end.

(** The message schedule, held most recent word first. *)
Fixpoint extend (n : nat) (rev_w : list Z) : list Z :=
  match n with
  | O => rev_w
  | S n' =>
      let x := Z.lxor (Z.lxor (List.nth 2 rev_w 0) (List.nth 7 rev_w 0))
                      (Z.lxor (List.nth 13 rev_w 0) (List.nth 15 rev_w 0)) in
      extend n' (rotl 1 x :: rev_w)
  end.

Definition schedule (block : list Z) : list Z :=
  List.rev (extend 64 (List.rev block)).

Record regs := Regs { ra : Z; rb : Z; rc : Z; rd : Z; re : Z }.

Definition round (t : nat) (wt : Z) (r : regs) : regs :=
  let temp :=
    add32 (add32 (add32 (add32 (rotl 5 (ra r)) (f t (rb r) (rc r) (rd r)))
                        (re r)) (K t)) wt in
  Regs temp (ra r) (rotl 30 (rb r)) (rc r) (rd r).

Fixpoint rounds (t : nat) (ws : list Z) (r : regs) : regs :=
  match ws with
  | [] => r
  | wt :: rest => rounds (S t) rest (round t wt r)
  end.

Definition compress (h : regs) (block : list Z) : regs :=
  let r := rounds 0 (schedule block) h in
  Regs (add32 (ra h) (ra r)) (add32 (rb h) (rb r)) (add32 (rc h) (rc r))
       (add32 (rd h) (rd r)) (add32 (re h) (re r)).

(** The padded message in blocks of sixteen words. *)
Fixpoint blocks (fuel : nat) (ws : list Z) : list (list Z) :=
  match fuel, ws with
  | S fuel', _ :: _ => List.firstn 16 ws :: blocks fuel' (List.skipn 16 ws)
  | _, _ => []
  end.

Definition init : regs :=
  Regs 0x67452301 0xEFCDAB89 0x98BADCFE 0x10325476 0xC3D2E1F0.

Definition state (msg : bytes) : regs :=
  let ws := words (pad msg) in
  List.fold_left compress (blocks (length ws) ws) init.

Definition digest_words (r : regs) : list Z :=
  [w32 (ra r); w32 (rb r); w32 (rc r); w32 (rd r); w32 (re r)].

(** [sha1(msg).digest()] *)
Definition digest (msg : bytes) : bytes :=
  List.concat (List.map (be_bytes 4) (digest_words (state msg))).

Definition hex_digit (d : Z) : N :=
  Z.to_N (if d <? 10 then 48 + d else 87 + d).

Definition hex_byte (b : Z) : pystr :=
  [hex_digit (Z.shiftr b 4 mod 16); hex_digit (b mod 16)].

(** [sha1(msg).hexdigest()] *)
Definition hexdigest (msg : bytes) : pystr :=
  List.concat (List.map hex_byte (digest msg)).

End SHA1.

(** ** Exceptions and the monad of a directive call *)

Inductive exn :=
| TypeError
| ValueError
| KeyError
| AttributeError
| UnicodeEncodeError
| FileExistsError
| FileNotFoundError
| NotADirectoryError
| PermissionError
| OSError.

Inductive outcome (A : Type) :=
| Returned (a : A)
| Raised (e : exn).
Arguments Returned {A} a.
Arguments Raised {A} e.

(** ** pathlib on POSIX *)

Abbreviation Path := (list (list N)).

Definition slash : N := 47.
Definition dot : N := 46.

(** [str(p)] *)
Definition path_str (p : Path) : pystr :=
  match p with
  | [] => [slash]
  | _ => List.concat (List.map (cons slash) p)
  end.

(** [p / name], for a [name] that is one relative component. *)
Definition truediv (p : Path) (name : pystr) : Path := p ++ [name].
Declare Scope path_scope.
Delimit Scope path_scope with path.
Infix "/" := truediv : path_scope.

(** [p.name] *)
Definition name (p : Path) : pystr := List.last p [].

(** [s.rfind(c)]: the highest index of [c] in [s], or -1. *)
Fixpoint rfind (c : N) (s : pystr) : Z :=
  match s with
  | [] => -1
  | x :: rest =>
      let r := rfind c rest in
      if 0 <=? r then r + 1 else if N.eqb x c then 0 else -1
  end.

(** [p.suffix] *)
Definition suffix (p : Path) : pystr :=
  let nm := name p in
  let i := rfind dot nm in
  if (0 <? i) && (i <? Z.of_nat (length nm) - 1)
  then List.skipn (Z.to_nat i) nm
  else [].

Definition startswith_dot (s : pystr) : bool :=
  match s with
  | c :: _ => N.eqb c dot
  | [] => false
  end.

Definition nonempty (s : pystr) : bool :=
  match s with [] => false | _ => true end.

(** [p.with_suffix(suf)] *)
Definition with_suffix (p : Path) (suf : pystr) : outcome Path :=
  if bool_decide (slash ∈ suf) then Raised ValueError
  else if (nonempty suf && negb (startswith_dot suf)) || bool_decide (suf = [dot])
  then Raised ValueError
  else
    let nm := name p in
    if negb (nonempty nm) then Raised ValueError
    else
      let old := suffix p in
      let nm' :=
        if negb (nonempty old) then nm ++ suf
        else List.firstn (length nm - length old) nm ++ suf in
      Returned (List.removelast p ++ [nm']).

(** ** The file system *)

Inductive kind := File | Dir.

Abbreviation fsmap := (gmap (list (list N)) kind).

(** What is at a path; the root is always a directory. *)
Definition stat (f : fsmap) (p : Path) : option kind :=
  match p with
  | [] => Some Dir
  | _ => f !! p
  end.

(** [p.exists()] *)
Definition path_exists (f : fsmap) (p : Path) : bool :=
  match stat f p with
  | Some _ => true
  | None => false
  end.

(** The non-empty prefixes of a path, shortest first: its ancestors
    below the root, then the path itself. *)
Fixpoint prefixes (p : Path) : list Path :=
  match p with
  | [] => []
  | c :: rest => [c] :: List.map (cons c) (prefixes rest)
  end.

(** Walk down [ds], making each directory that is missing. *)
Fixpoint makedirs (ds : list Path) (f : fsmap) : outcome fsmap :=
  match ds with
  | [] => Returned f
  | d :: rest =>
      match f !! d with
      | Some Dir => makedirs rest f
      | Some File => Raised NotADirectoryError
      | None => makedirs rest (<[d := Dir]> f)
      end
  end.

(** [p.mkdir(parents=True)]: missing ancestors are made on the way;
    [p] itself must not exist ([exist_ok] is left at [False]). *)
Definition mkdir_parents (p : Path) (f : fsmap) : outcome fsmap :=
  match stat f p with
  | Some _ => Raised FileExistsError
  | None => makedirs (prefixes p) f
  end.

(** ** The operating system seen from the directive *)

(** The calls [run] makes to [pathlib] and [subprocess], in the order
    they are made and with their arguments; a call is recorded when it
    is entered, whether it then returns or raises. *)
Inductive event :=
| EvMkdir (p : Path)
| EvPopen (command : list (option pystr)) (cwd : Path)
| EvCommunicate (input : bytes) (status : Z).

Record world := World { fs : fsmap; trace : list event }.

(** Why the operating system does not start a program: the file is
    not there, may not be executed, is no program, or lies below
    something that is no directory. *)
Inductive exec_error := ENOENT | EACCES | ENOEXEC | ENOTDIR.

(** The exception [subprocess] raises for it. *)
Definition exec_exn (e : exec_error) : exn :=
  match e with
  | ENOENT => FileNotFoundError
  | EACCES => PermissionError
  | ENOEXEC => OSError
  | ENOTDIR => NotADirectoryError
  end.

(** [which] is [shutil.which] under the current search path.  [exec]
    says whether a program starts, from its arguments, the working
    directory it is started in (a relative program path is looked up
    there) and the file system: [None] when it starts, else the error.
    [child] is what a started program does: from its arguments, working
    directory and standard input to the file system it leaves behind
    and its exit status. *)
Record System := {
  which : pystr → option pystr;
  exec : list pystr → Path → fsmap → option exec_error;
  child : list pystr → Path → bytes → fsmap → fsmap * Z
}.

Definition M (A : Type) := world → outcome A * world.

Definition ret {A} (a : A) : M A := fun w => (Returned a, w).

Definition raise {A} (e : exn) : M A := fun w => (Raised e, w).

Definition bind {A B} (k : A → M B) (m : M A) : M B :=
  fun w =>
    match m w with
    | (Returned a, w') => k a w'
    | (Raised e, w') => (Raised e, w')
    end.

#[export] Instance M_ret : MRet M := @ret.
#[export] Instance M_bind : MBind M := @bind.

Definition get_fs : M fsmap := fun w => (Returned (fs w), w).

Definition put_fs (f : fsmap) : M unit :=
  fun w => (Returned tt, World f (trace w)).

Definition emit (e : event) : M unit :=
  fun w => (Returned tt, World (fs w) (trace w ++ [e])).

Definition lift {A} (o : outcome A) : M A :=
  match o with
  | Returned a => ret a
  | Raised e => raise e
  end.

(** [typst_doc.encode()] *)
Definition str_encode (s : pystr) : M bytes :=
  match encode s with
  | Some b => ret b
  | None => raise UnicodeEncodeError
  end.

(** [tmpdir.mkdir(parents=True)] *)
Definition mkdir (p : Path) : M unit :=
  emit (EvMkdir p);;
  f ← get_fs;
  f' ← lift (mkdir_parents p f);
  put_fs f'.

Record process := Process { argv : list pystr; proc_cwd : Path }.

(** All arguments, if none of them is [None]. *)
Fixpoint str_args (command : list (option pystr)) : option (list pystr) :=
  match command with
  | [] => Some []
  | Some a :: rest =>
      match str_args rest with
      | Some l => Some (a :: l)
      | None => None
      end
  | None :: _ => None
  end.

(** [subprocess.Popen(command, cwd=cwd, stdin=subprocess.PIPE)]: an
    argument that is not a string is a [TypeError]; the child changes
    to [cwd], which has to be a directory, and then executes the
    program, which the operating system may refuse. *)
Definition Popen (sys : System) (command : list (option pystr)) (cwd : Path)
  : M process :=
  emit (EvPopen command cwd);;
  match str_args command with
  | None => raise TypeError
  | Some args =>
      f ← get_fs;
      match stat f cwd with
      | Some Dir =>
          match exec sys args cwd f with
          | None => ret (Process args cwd)
          | Some e => raise (exec_exn e)
          end
      | Some File => raise NotADirectoryError
      | None => raise FileNotFoundError
      end
  end.

(** [proc.communicate(input)]: write the input to the child's standard
    input, close it and wait until the child has exited. *)
Definition communicate (sys : System) (proc : process) (input : bytes)
  : M unit :=
  f ← get_fs;
  let r := child sys (argv proc) (proc_cwd proc) input f in
  put_fs (fst r);;
  emit (EvCommunicate input (snd r)).

(** ** docutils nodes *)

Inductive attr :=
| AStr (s : pystr)
| AList (l : list pystr).

Record node := Element { tagname : string; attributes : gmap string attr }.

(** [nodes.image()]: a new element starts with its list attributes
    empty. *)
Definition nodes_image : node :=
  Element "image"
    (<["ids" := AList []]> (<["classes" := AList []]> (<["names" := AList []]>
      (<["dupnames" := AList []]> (<["backrefs" := AList []]> ∅))))).

(** [n[key] = value] *)
Definition setitem (n : node) (key : string) (value : attr) : node :=
  Element (tagname n) (<[key := value]> (attributes n)).

(** [n[key].append(x)] *)
Definition append_item (n : node) (key : string) (x : pystr) : outcome node :=
  match attributes n !! key with
  | None => Raised KeyError
  | Some (AStr _) => Raised AttributeError
  | Some (AList l) => Returned (setitem n key (AList (l ++ [x])))
  end.

(** ** TypstMathDirective *)

(** The parts of [self] that [run] reads. *)
Record Directive := {
  config_typst_math_typst : pystr;
  builder_outdir : Path;
  builder_format : pystr;
  content : list pystr
}.

Definition newline : pystr := [10%N].

(** Line 50: the document handed to typst. *)
Definition typst_doc (self : Directive) : pystr :=
  lit "#set page(width: auto, height: auto, margin: 3.14pt)"
  ++ newline ++ newline
  ++ lit "$ " ++ join newline (content self) ++ lit " $".

(** Line 53 *)
Definition tmpdir (self : Directive) : Path :=
  (builder_outdir self / lit "assets" / lit "typst_math")%path.

(** Lines 59 and 60, given the encoded document. *)
Definition filename (data : bytes) : pystr := SHA1.hexdigest data.

Definition filepath (self : Directive) (data : bytes) : Path :=
  (tmpdir self / filename data)%path.

(** Lines 65 to 70: the extension for the builder's format. *)
Definition extension (format : pystr) : pystr :=
  if decide (format = lit "html") then lit ".svg"
  else if decide (format = lit "pdf") then lit ".pdf"
  else lit ".png".

Definition run (sys : System) (self : Directive) : M (list node) :=
  let typst := which sys (config_typst_math_typst self) in
  let doc := typst_doc self in
  let tmp := tmpdir self in
  f ← get_fs;
  (if negb (path_exists f tmp) then mkdir tmp else ret tt);;
  data ← str_encode doc;
  let path := filepath self data in
  let command := [typst; Some (lit "compile"); Some (lit "-")] in
  target ←
    (if decide (builder_format self = lit "html")
     then lift (with_suffix path (lit ".svg"))
     else if decide (builder_format self = lit "pdf")
     then lift (with_suffix path (lit ".pdf"))
     else lift (with_suffix path (lit ".png")));
  let command := command ++ [Some (path_str target)] in
  proc ← Popen sys command tmp;
  input ← str_encode doc;
  communicate sys proc input;;
  let img_node := nodes_image in
  uri ← lift (with_suffix path (lit ".*"));
  let img_node := setitem img_node "uri" (AStr (path_str uri)) in
  img_node ← lift (append_item img_node "classes" (lit "typst-math"));
  let img_node := setitem img_node "align" (AStr (lit "center")) in
  ret [img_node].

(** A call of [run] on a file system, with a fresh trace. *)
Definition call (sys : System) (self : Directive) (f : fsmap)
  : outcome (list node) * world :=
  run sys self (World f []).

(** What a trace says about subprocesses: the [Popen] calls with their
    command and working directory, the inputs handed to [communicate],
    and the directories [mkdir] was called on. *)
Definition spawned (tr : list event) : list (list (option pystr) * Path) :=
  List.flat_map
    (fun e => match e with EvPopen c d => [(c, d)] | _ => [] end) tr.

Definition communicated (tr : list event) : list bytes :=
  List.flat_map
    (fun e => match e with EvCommunicate i _ => [i] | _ => [] end) tr.

Definition made (tr : list event) : list Path :=
  List.flat_map
    (fun e => match e with EvMkdir p => [p] | _ => [] end) tr.

(** No component of the path down to [p] is a regular file. *)
Definition creatable (f : fsmap) (p : Path) : bool :=
  List.forallb
    (fun d => match f !! d with Some File => false | _ => true end)
    (prefixes p).

(** The file system once [p] and its ancestors are directories. *)
Definition with_dirs (f : fsmap) (p : Path) : fsmap :=
  List.fold_left (fun g d => <[d := Dir]> g) (prefixes p) f.

(** The file system that [run] leaves for the compiler. *)
Definition prepared (f : fsmap) (p : Path) : fsmap :=
  if path_exists f p then f else with_dirs f p.

(** The node that the last five lines of [run] build around a uri. *)
Definition image_node (uri : pystr) : node :=
  setitem
    (setitem (setitem nodes_image "uri" (AStr uri))
             "classes" (AList [lit "typst-math"]))
    "align" (AStr (lit "center")).

Definition ascii_bytes (s : string) : bytes :=
  List.map (fun a => Z.of_N (N_of_ascii a)) (list_ascii_of_string s).

(** ** Systems and directives to run the model on *)

(** [s] cut at every slash, empty pieces dropped: the components of an
    absolute path given as a string. *)
Fixpoint split_path (s cur : pystr) : Path :=
  match s with
  | [] => if nonempty cur then [cur] else []
  | c :: rest =>
      if N.eqb c slash
      then (if nonempty cur then [cur] else []) ++ split_path rest []
      else split_path rest (cur ++ [c])
  end.

Definition which_typst (cmd : pystr) : option pystr :=
  if decide (cmd = lit "typst") then Some (lit "/usr/bin/typst") else None.

(** A compiler that writes an empty file at the path given as its last
    argument and exits with status 0, unless a directory is in the way. *)
Definition writing_typst : System := {|
  which := which_typst;
  exec := fun args cwd f => None;
  child := fun args cwd input f =>
    let out := split_path (List.last args []) [] in
    match f !! out with
    | Some Dir => (f, 1)
    | _ => (<[out := File]> f, 0)
    end
|}.

(** A compiler that rejects its input: nothing written, status 1. *)
Definition failing_typst : System := {|
  which := which_typst;
  exec := fun args cwd f => None;
  child := fun args cwd input f => (f, 1)
|}.

(** A search path without typst. *)
Definition no_typst : System := {|
  which := fun cmd => None;
  exec := fun args cwd f => None;
  child := fun args cwd input f => (f, 0)
|}.

(** A search path with a relative entry: [which] gives a relative
    path, and the child, which has changed to its working directory,
    looks the program up there. *)
Definition relative_typst : System := {|
  which := fun cmd => Some (lit "bin/typst");
  exec := fun args cwd f =>
    match f !! (cwd ++ split_path (List.hd [] args) []) with
    | Some File => None
    | _ => Some ENOENT
    end;
  child := fun args cwd input f => (f, 0)
|}.

Definition directive (format : pystr) (lines : list pystr) : Directive := {|
  config_typst_math_typst := lit "typst";
  builder_outdir := [lit "srv"; lit "build"];
  builder_format := format;
  content := lines
|}.

Definition pythagoras : Directive := directive (lit "html") [lit "x^2 + y^2 = z^2"].
Definition tight : Directive := directive (lit "html") [lit "x+y"].
Definition spaced : Directive := directive (lit "html") [lit "x + y"].



(** The bytes of a string that has an encoding. *)
Definition utf8 (s : pystr) : bytes := default [] (encode s).

(** The same directive under another builder. *)
Definition with_format (self : Directive) (format : pystr) : Directive := {|
  config_typst_math_typst := config_typst_math_typst self;
  builder_outdir := builder_outdir self;
  builder_format := format;
  content := content self
|}.

(** A compiler that never removes a directory. *)
Definition keeps_dirs (sys : System) : Prop :=
  ∀ args cwd input (g : fsmap) (p : Path),
    g !! p = Some Dir → (child sys args cwd input g).1 !! p = Some Dir.

(** The compiler starts: the operating system executes the program at
    the one place where [run] asks for it, in the cache directory, on
    the file system that lines 53 to 55 have left. *)
Definition starts (sys : System) (self : Directive) (f : fsmap)
    (exe : pystr) (data : bytes) : Prop :=
  exec sys
    [exe; lit "compile"; lit "-";
     path_str (filepath self data) ++ extension (builder_format self)]
    (tmpdir self) (prepared f (tmpdir self))
  = None.

(** A failure is reported before a subprocess is attempted when the call
    raises without having called [subprocess.Popen]. *)
Definition reported_before_spawn (r : outcome (list node) * world) : Prop :=
  (∃ e, r.1 = Raised e) ∧ spawned (trace r.2) = [].

(** ** Further definitions for the analysis of [run] and [setup] *)

(** Lines 59 to 80 of [run], started on the file system [g] with the
    trace [pre] that lines 45 to 55 have left. *)
Definition run_from (sys : System) (self : Directive) (g : fsmap)
    (pre : list event) : outcome (list node) * world :=
  let tmp := tmpdir self in
  match encode (typst_doc self) with
  | None => (Raised UnicodeEncodeError, World g pre)
  | Some data =>
      let base := path_str (filepath self data) in
      let target := base ++ extension (builder_format self) in
      let typst := which sys (config_typst_math_typst self) in
      let command :=
        [typst; Some (lit "compile"); Some (lit "-"); Some target] in
      match typst, stat g tmp with
      | None, _ => (Raised TypeError, World g (pre ++ [EvPopen command tmp]))
      | Some exe, Some Dir =>
          let args := [exe; lit "compile"; lit "-"; target] in
          match exec sys args tmp g with
          | Some e =>
              (Raised (exec_exn e), World g (pre ++ [EvPopen command tmp]))
          | None =>
              let r := child sys args tmp data g in
              (Returned [image_node (base ++ lit ".*")],
               World r.1 (pre ++ [EvPopen command tmp; EvCommunicate data r.2]))
          end
      | Some exe, Some File =>
          (Raised NotADirectoryError, World g (pre ++ [EvPopen command tmp]))
      | Some exe, None =>
          (Raised FileNotFoundError, World g (pre ++ [EvPopen command tmp]))
      end
  end.

(** A lowercase hexadecimal digit. *)
Definition is_hex (c : N) : bool :=
  ((48 <=? c) && (c <=? 57) || (97 <=? c) && (c <=? 102))%N.

(** A code point that UTF-8 can encode: below 0x110000 and no
    surrogate. *)
Definition is_scalar (c : N) : bool :=
  ((c <? 0xD800) || (0xDFFF <? c) && (c <? 0x110000))%N.

(** ** Sphinx, as far as [setup] uses it *)

(** A directive class: its [has_content] attribute and its [run]. *)
Record directive_class := DirectiveClass {
  has_content : bool;
  run_method : System → Directive → M (list node)
}.

(** [class TypstMathDirective(SphinxDirective)], lines 28 to 80. *)
Definition TypstMathDirective : directive_class :=
  {| has_content := true; run_method := run |}.

(** A registered configuration value: its default, and what is rebuilt
    when it changes. *)
Record config_value := ConfigValue { cv_default : pystr; cv_rebuild : string }.

(** The two registries of the application that [setup] writes to. *)
Record Sphinx := {
  directives : gmap string directive_class;
  config_values : gmap string config_value
}.

(** [app.add_directive(name, cls)]: the class is registered under the
    name, in the place of a class registered there before. *)
Definition add_directive (name : string) (cls : directive_class)
    (app : Sphinx) : Sphinx :=
  {| directives := <[name := cls]> (directives app);
     config_values := config_values app |}.

(** [app.add_config_value(name, default, rebuild)]: a name that is
    registered already is an [ExtensionError], here [None]. *)
Definition add_config_value (name : string) (default : pystr)
    (rebuild : string) (app : Sphinx) : option Sphinx :=
  match config_values app !! name with
  | Some _ => None
  | None =>
      Some {| directives := directives app;
              config_values :=
                <[name := ConfigValue default rebuild]> (config_values app) |}
  end.

Record ExtensionMetadata := {
  version : string;
  parallel_read_safe : bool;
  parallel_write_safe : bool
}.

(** [setup(app)], lines 83 to 101: the application as the call leaves
    it, and the metadata if the call returns. *)
Definition setup (app : Sphinx) : Sphinx * option ExtensionMetadata :=
  let app1 := add_directive "typst-math" TypstMathDirective app in
  match add_config_value "typst_math_typst" (lit "typst") "env" app1 with
  | None => (app1, None)
  | Some app2 =>
      (app2,
       Some {| version := "0.1.0-dev";
               parallel_read_safe := true;
               parallel_write_safe := true |})
  end.

(** An application with nothing registered, and one where another
    extension has taken the configuration name. *)
Definition fresh_app : Sphinx := {| directives := ∅; config_values := ∅ |}.

Definition taken_app : Sphinx := {|
  directives := ∅;
  config_values := {[ "typst_math_typst"%string := ConfigValue (lit "tinymist") "html" ]}
|}.

(** * Properties *)

(** ** Test vectors of FIPS 180-4 *)

Example sha1_empty :
  SHA1.hexdigest [] = lit "da39a3ee5e6b4b0d3255bfef95601890afd80709".
Proof. vm_compute. reflexivity. Qed.

Example sha1_abc :
  SHA1.hexdigest (ascii_bytes "abc")
  = lit "a9993e364706816aba3e25717850c26c9cd0d89d".
Proof. vm_compute. reflexivity. Qed.

Example sha1_two_blocks :
  SHA1.hexdigest
    (ascii_bytes "abcdbcdecdefdefgefghfghighijhijkijkljklmklmnlmnomnopnopq")
  = lit "84983e441c3bd26ebaae4aa1f95129e5e54670f1".
Proof. vm_compute. reflexivity. Qed.


(** ** Strings, digests and paths *)

Lemma hex_digit_plain (d : Z) :
  0 <= d < 16 → SHA1.hex_digit d ≠ dot ∧ SHA1.hex_digit d ≠ slash.
Proof.
  intros Hd. unfold SHA1.hex_digit, dot, slash.
  destruct (d <? 10) eqn:E; split; lia.
Qed.

Lemma hex_byte_plain (b : Z) (c : N) :
  In c (SHA1.hex_byte b) → c ≠ dot ∧ c ≠ slash.
Proof.
  unfold SHA1.hex_byte. intros [<-|[<-|[]]];
    apply hex_digit_plain; apply Z.mod_pos_bound; lia.
Qed.

Lemma hexdigest_plain (msg : bytes) (c : N) :
  In c (SHA1.hexdigest msg) → c ≠ dot ∧ c ≠ slash.
Proof.
  unfold SHA1.hexdigest. intros Hc.
  apply in_concat in Hc as (l & Hl & Hc).
  apply in_map_iff in Hl as (b & <- & _).
  exact (hex_byte_plain b c Hc).
Qed.

Lemma hexdigest_length (msg : bytes) : length (SHA1.hexdigest msg) = 40%nat.
Proof. reflexivity. Qed.

Lemma hexdigest_nonempty (msg : bytes) : nonempty (SHA1.hexdigest msg) = true.
Proof. reflexivity. Qed.

Lemma rfind_absent (c : N) (s : pystr) : ¬ In c s → rfind c s = -1.
Proof.
  induction s as [|x s IH]; simpl; [reflexivity|].
  intros Hn. rewrite IH by tauto. simpl.
  destruct (N.eqb_spec x c); [tauto | reflexivity].
Qed.

Lemma name_truediv (p : Path) (nm : pystr) : name (p / nm)%path = nm.
Proof. unfold name, truediv. apply last_last. Qed.

Lemma path_str_truediv (p : Path) (nm : pystr) :
  p ≠ [] → path_str (p / nm)%path = path_str p ++ slash :: nm.
Proof.
  intros Hp. unfold path_str, truediv.
  destruct p as [|c p]; [congruence|].
  destruct ((c :: p) ++ [nm]) eqn:E; [destruct p; discriminate|].
  rewrite <- E, List.map_app, concat_app. simpl.
  rewrite app_nil_r. reflexivity.
Qed.

(** A name without a dot has no suffix, so [with_suffix] appends. *)
Lemma with_suffix_plain (p : Path) (nm suf : pystr) :
  nonempty nm = true →
  ¬ In dot nm →
  bool_decide (slash ∈ suf) = false →
  (nonempty suf && negb (startswith_dot suf)) || bool_decide (suf = [dot])
    = false →
  with_suffix (p / nm)%path suf = Returned (p / (nm ++ suf))%path.
Proof.
  intros Hnm Hdot H1 H2. unfold with_suffix.
  rewrite H1, H2, name_truediv, Hnm. simpl.
  unfold suffix. rewrite name_truediv, rfind_absent by exact Hdot.
  simpl. unfold truediv. rewrite removelast_last. reflexivity.
Qed.

(** ** The cache directory *)

Lemma insert_dir_ok (f : fsmap) (d q : Path) :
  match f !! q with Some File => false | _ => true end = true →
  match <[d := Dir]> f !! q with Some File => false | _ => true end = true.
Proof.
  intros H. destruct (decide (d = q)) as [->|Hne].
  - rewrite lookup_insert_eq. reflexivity.
  - rewrite lookup_insert_ne by exact Hne. exact H.
Qed.

Lemma makedirs_creatable (ds : list Path) (f : fsmap) :
  List.forallb
    (fun d => match f !! d with Some File => false | _ => true end) ds = true →
  makedirs ds f
  = Returned (List.fold_left (fun g d => <[d := Dir]> g) ds f).
Proof.
  revert f. induction ds as [|d ds IH]; intros f Hok; simpl in *.
  - reflexivity.
  - apply andb_prop in Hok as [Hd Hds].
    assert (Hds' : List.forallb
      (fun q => match <[d := Dir]> f !! q with Some File => false | _ => true end)
      ds = true).
    { rewrite forallb_forall in Hds |- *.
      intros q Hq. apply insert_dir_ok, Hds, Hq. }
    destruct (f !! d) as [[|]|] eqn:E.
    + discriminate.
    + rewrite <- (insert_id f d Dir E) at 1.
      rewrite (IH _ Hds'). reflexivity.
    + apply (IH _ Hds').
Qed.

Lemma fold_dirs_keeps (ds : list Path) (f : fsmap) (q : Path) :
  f !! q = Some Dir →
  List.fold_left (fun g d => <[d := Dir]> g) ds f !! q = Some Dir.
Proof.
  revert f. induction ds as [|d ds IH]; intros f Hq; simpl; [exact Hq|].
  apply IH. destruct (decide (d = q)) as [->|Hne].
  - apply lookup_insert_eq.
  - rewrite lookup_insert_ne by exact Hne. exact Hq.
Qed.

Lemma fold_dirs_makes (ds : list Path) (f : fsmap) (q : Path) :
  In q ds →
  List.fold_left (fun g d => <[d := Dir]> g) ds f !! q = Some Dir.
Proof.
  revert f. induction ds as [|d ds IH]; intros f Hq; simpl; [destruct Hq|].
  destruct Hq as [->|Hq].
  - apply fold_dirs_keeps, lookup_insert_eq.
  - apply IH, Hq.
Qed.

Lemma prefixes_self (p : Path) : p ≠ [] → In p (prefixes p).
Proof.
  induction p as [|c p IH]; [congruence|]. intros _. simpl.
  destruct p as [|c' p]; [left; reflexivity|].
  right. apply in_map, IH. discriminate.
Qed.

Lemma prefixes_nonempty (p q : Path) : In q (prefixes p) → q ≠ [].
Proof.
  destruct p as [|c p]; simpl; [tauto|].
  intros [<-|Hq]; [discriminate|].
  apply in_map_iff in Hq as (r & <- & _). discriminate.
Qed.

Lemma with_dirs_prefix (f : fsmap) (p q : Path) :
  In q (prefixes p) → stat (with_dirs f p) q = Some Dir.
Proof.
  intros Hq. unfold stat, with_dirs.
  destruct q as [|c q]; [reflexivity|].
  apply fold_dirs_makes, Hq.
Qed.

Lemma creatable_not_file (f : fsmap) (p q : Path) :
  creatable f p = true → In q (prefixes p) → f !! q ≠ Some File.
Proof.
  unfold creatable. rewrite forallb_forall. intros H Hq E.
  specialize (H q Hq). rewrite E in H. discriminate.
Qed.

Lemma prepared_is_dir (f : fsmap) (p : Path) :
  p ≠ [] → creatable f p = true → stat (prepared f p) p = Some Dir.
Proof.
  intros Hp Hc. unfold prepared, path_exists.
  destruct (stat f p) as [k|] eqn:E.
  - rewrite E. destruct k; [|reflexivity].
    exfalso. apply (creatable_not_file f p p Hc (prefixes_self p Hp)).
    destruct p; [congruence | exact E].
  - apply with_dirs_prefix, prefixes_self, Hp.
Qed.

Lemma tmpdir_nonempty (self : Directive) : tmpdir self ≠ [].
Proof.
  unfold tmpdir, truediv. intros E.
  apply app_eq_nil in E as [_ E]. discriminate.
Qed.

Lemma mkdir_creatable (f : fsmap) (p : Path) (tr : list event) :
  creatable f p = true →
  path_exists f p = false →
  mkdir p (World f tr) = (Returned tt, World (with_dirs f p) (tr ++ [EvMkdir p])).
Proof.
  intros Hc He. unfold mkdir, mbind, M_bind, bind, emit, get_fs, put_fs. simpl.
  unfold mkdir_parents. unfold path_exists in He.
  destruct (stat f p); [discriminate|].
  rewrite (makedirs_creatable _ _ Hc). reflexivity.
Qed.

(** ** The whole of [run] *)

Lemma with_suffix_filepath (self : Directive) (data : bytes) (suf : pystr) :
  bool_decide (slash ∈ suf) = false →
  (nonempty suf && negb (startswith_dot suf)) || bool_decide (suf = [dot])
    = false →
  with_suffix (filepath self data) suf
  = Returned (tmpdir self / (filename data ++ suf))%path.
Proof.
  intros H1 H2. unfold filepath. apply with_suffix_plain; try assumption.
  - apply hexdigest_nonempty.
  - intros Hd. apply hexdigest_plain in Hd. tauto.
Qed.

Lemma path_str_suffixed (self : Directive) (data : bytes) (suf : pystr) :
  path_str (tmpdir self / (filename data ++ suf))%path
  = path_str (filepath self data) ++ suf.
Proof.
  unfold filepath. rewrite !path_str_truediv by apply tmpdir_nonempty.
  rewrite <- app_assoc. reflexivity.
Qed.

Lemma append_classes (uri x : pystr) :
  append_item (setitem nodes_image "uri" (AStr uri)) "classes" x
  = Returned (setitem (setitem nodes_image "uri" (AStr uri))
                      "classes" (AList [x])).
Proof.
  unfold append_item.
  assert (E : attributes (setitem nodes_image "uri" (AStr uri)) !! "classes"
              = Some (AList [])).
  { unfold setitem. cbn [attributes].
    rewrite lookup_insert_ne by discriminate. reflexivity. }
  rewrite E. reflexivity.
Qed.

Lemma call_creatable (sys : System) (self : Directive) (f : fsmap) :
  creatable f (tmpdir self) = true →
  call sys self f =
    let tmp := tmpdir self in
    let pre := if path_exists f tmp then [] else [EvMkdir tmp] in
    let g := prepared f tmp in
    match encode (typst_doc self) with
    | None => (Raised UnicodeEncodeError, World g pre)
    | Some data =>
        let base := path_str (filepath self data) in
        let target := base ++ extension (builder_format self) in
        let typst := which sys (config_typst_math_typst self) in
        let command :=
          [typst; Some (lit "compile"); Some (lit "-"); Some target] in
        match typst with
        | None => (Raised TypeError, World g (pre ++ [EvPopen command tmp]))
        | Some exe =>
            let args := [exe; lit "compile"; lit "-"; target] in
            match exec sys args tmp g with
            | Some e =>
                (Raised (exec_exn e), World g (pre ++ [EvPopen command tmp]))
            | None =>
                let r := child sys args tmp data g in
                (Returned [image_node (base ++ lit ".*")],
                 World (fst r)
                       (pre ++ [EvPopen command tmp;
                                EvCommunicate data (snd r)]))
            end
        end
    end.
Proof.
  intros Hc. unfold call, run.
  assert (Hprep :
    (if negb (path_exists f (tmpdir self)) then mkdir (tmpdir self) else ret ())
      (World f [])
    = (Returned (), World (prepared f (tmpdir self))
                          (if path_exists f (tmpdir self) then []
                           else [EvMkdir (tmpdir self)]))).
  { unfold prepared. destruct (path_exists f (tmpdir self)) eqn:E; simpl.
    - reflexivity.
    - apply (mkdir_creatable f (tmpdir self) [] Hc E). }
  assert (Htarget : ∀ data,
    (if decide (builder_format self = lit "html")
     then lift (with_suffix (filepath self data) (lit ".svg"))
     else if decide (builder_format self = lit "pdf")
     then lift (with_suffix (filepath self data) (lit ".pdf"))
     else lift (with_suffix (filepath self data) (lit ".png")))
    = ret (tmpdir self / (filename data ++ extension (builder_format self)))%path).
  { intros data. unfold extension.
    destruct (decide (builder_format self = lit "html"));
      [|destruct (decide (builder_format self = lit "pdf"))];
      rewrite with_suffix_filepath by reflexivity; reflexivity. }
  pose proof (prepared_is_dir f (tmpdir self) (tmpdir_nonempty self) Hc) as Hdir.
  unfold mbind, M_bind, bind, get_fs. cbn [fs trace].
  rewrite Hprep. unfold str_encode.
  destruct (encode (typst_doc self)) as [data|]; [|reflexivity].
  cbn [ret]. rewrite Htarget. cbn [ret].
  rewrite path_str_suffixed.
  unfold Popen, mbind, M_bind, bind, emit, get_fs. cbn [fs trace app str_args].
  destruct (which sys (config_typst_math_typst self)) as [exe|];
    [|reflexivity].
  cbn [fs trace app str_args ret]. rewrite Hdir.
  destruct (exec sys _ (tmpdir self) (prepared f (tmpdir self)));
    [reflexivity|].
  cbn [ret].
  unfold communicate, mbind, M_bind, bind, emit, get_fs, put_fs.
  cbn [fs trace ret argv proc_cwd].
  rewrite with_suffix_filepath by reflexivity.
  cbn [lift ret]. rewrite path_str_suffixed.
  rewrite append_classes. cbn [lift ret].
  rewrite <- app_assoc. reflexivity.
Qed.

Lemma call_returns (sys : System) (self : Directive) (f : fsmap)
    (exe : pystr) (data : bytes) :
  which sys (config_typst_math_typst self) = Some exe →
  encode (typst_doc self) = Some data →
  creatable f (tmpdir self) = true →
  starts sys self f exe data →
  call sys self f =
    let tmp := tmpdir self in
    let base := path_str (filepath self data) in
    let target := base ++ extension (builder_format self) in
    let r := child sys [exe; lit "compile"; lit "-"; target] tmp data
                   (prepared f tmp) in
    (Returned [image_node (base ++ lit ".*")],
     World r.1
       ((if path_exists f tmp then [] else [EvMkdir tmp])
        ++ [EvPopen [Some exe; Some (lit "compile"); Some (lit "-");
                     Some target] tmp;
            EvCommunicate data r.2])).
Proof.
  intros Hw He Hc Hs. rewrite (call_creatable sys self f Hc).
  cbv zeta. rewrite He, Hw. unfold starts in Hs. rewrite Hs. reflexivity.
Qed.

Lemma call_not_started (sys : System) (self : Directive) (f : fsmap)
    (exe : pystr) (data : bytes) (e : exec_error) :
  which sys (config_typst_math_typst self) = Some exe →
  encode (typst_doc self) = Some data →
  creatable f (tmpdir self) = true →
  exec sys
    [exe; lit "compile"; lit "-";
     path_str (filepath self data) ++ extension (builder_format self)]
    (tmpdir self) (prepared f (tmpdir self))
  = Some e →
  call sys self f =
    let tmp := tmpdir self in
    let target :=
      path_str (filepath self data) ++ extension (builder_format self) in
    (Raised (exec_exn e),
     World (prepared f tmp)
       ((if path_exists f tmp then [] else [EvMkdir tmp])
        ++ [EvPopen [Some exe; Some (lit "compile"); Some (lit "-");
                     Some target] tmp])).
Proof.
  intros Hw He Hc Hs. rewrite (call_creatable sys self f Hc).
  cbv zeta. rewrite He, Hw, Hs. reflexivity.
Qed.

(** What [Popen] is called with does not depend on whether the program
    then starts. *)
Lemma call_spawned (sys : System) (self : Directive) (f : fsmap)
    (exe : pystr) (data : bytes) :
  which sys (config_typst_math_typst self) = Some exe →
  encode (typst_doc self) = Some data →
  creatable f (tmpdir self) = true →
  spawned (trace (call sys self f).2)
  = [([Some exe; Some (lit "compile"); Some (lit "-");
       Some (path_str (filepath self data)
             ++ extension (builder_format self))], tmpdir self)]
  ∧ ∀ input, In input (communicated (trace (call sys self f).2)) →
      input = data.
Proof.
  intros Hw He Hc. rewrite (call_creatable sys self f Hc).
  cbv zeta. rewrite He, Hw.
  destruct (exec sys _ (tmpdir self) (prepared f (tmpdir self)));
    cbn [snd trace]; destruct (path_exists f (tmpdir self));
    (split; [reflexivity|]); cbn; intuition congruence.
Qed.

Lemma call_without_compiler (sys : System) (self : Directive) (f : fsmap)
    (data : bytes) :
  which sys (config_typst_math_typst self) = None →
  encode (typst_doc self) = Some data →
  creatable f (tmpdir self) = true →
  call sys self f =
    let tmp := tmpdir self in
    let target :=
      path_str (filepath self data) ++ extension (builder_format self) in
    (Raised TypeError,
     World (prepared f tmp)
       ((if path_exists f tmp then [] else [EvMkdir tmp])
        ++ [EvPopen [None; Some (lit "compile"); Some (lit "-");
                     Some target] tmp])).
Proof.
  intros Hw He Hc. rewrite (call_creatable sys self f Hc).
  cbv zeta. rewrite He, Hw. reflexivity.
Qed.

(** ** Reading a trace *)

Lemma spawned_after_mkdir (b : bool) (p : Path) (tr : list event) :
  spawned ((if b then [] else [EvMkdir p]) ++ tr) = spawned tr.
Proof. destruct b; reflexivity. Qed.

Lemma communicated_after_mkdir (b : bool) (p : Path) (tr : list event) :
  communicated ((if b then [] else [EvMkdir p]) ++ tr) = communicated tr.
Proof. destruct b; reflexivity. Qed.

Lemma made_before_spawn (b : bool) (p : Path) (tr : list event) :
  made tr = [] →
  made ((if b then [] else [EvMkdir p]) ++ tr) = if b then [] else [p].
Proof. intros H. destruct b; simpl; rewrite H; reflexivity. Qed.

Lemma extension_cases (format : pystr) :
  (format = lit "html" → extension format = lit ".svg")
  ∧ (format = lit "pdf" → extension format = lit ".pdf")
  ∧ (format ≠ lit "html" → format ≠ lit "pdf" → extension format = lit ".png").
Proof.
  unfold extension. repeat split.
  - intros ->. reflexivity.
  - intros ->. reflexivity.
  - intros H1 H2. destruct (decide (format = lit "html")); [tauto|].
    destruct (decide (format = lit "pdf")); [tauto|]. reflexivity.
Qed.

(** ** The claims *)



(** C2: the Content Key and the target path are a function of the input
    alone, independent of the file system.  On any two file systems,
    for instance before and after calls with other expressions, the
    same command, built on the same key, is handed to [Popen], and the
    calls whose compiler starts return the same node. *)
Theorem C2_deterministic (sys : System) (self : Directive) (f1 f2 : fsmap)
    (exe : pystr) (data : bytes) :
  which sys (config_typst_math_typst self) = Some exe →
  encode (typst_doc self) = Some data →
  creatable f1 (tmpdir self) = true →
  creatable f2 (tmpdir self) = true →
  ∃ key target,
    key = filename data
    ∧ target = path_str (tmpdir self / key)%path
               ++ extension (builder_format self)
    ∧ ∀ f, f = f1 ∨ f = f2 →
        spawned (trace (call sys self f).2)
        = [([Some exe; Some (lit "compile"); Some (lit "-"); Some target],
            tmpdir self)]
        ∧ (starts sys self f exe data →
           (call sys self f).1
           = Returned
               [image_node (path_str (tmpdir self / key)%path ++ lit ".*")]).
Proof.
  intros Hw He Hc1 Hc2. exists (filename data). eexists.
  split; [reflexivity|]. split; [reflexivity|].
  intros f Hf.
  assert (Hc : creatable f (tmpdir self) = true) by (destruct Hf; subst; assumption).
  split.
  - apply (call_spawned sys self f exe data Hw He Hc).
  - intros Hs. rewrite (call_returns sys self f exe data Hw He Hc Hs).
    reflexivity.
Qed.

Lemma C2_deterministic_witness :
  let f1 : fsmap := ∅ in
  let f2 := fs (call writing_typst spaced (fs (call writing_typst tight f1).2)).2 in
  creatable f2 (tmpdir tight) = true
  ∧ f2 !! (tmpdir tight / (filename (utf8 (typst_doc spaced)) ++ lit ".svg"))%path
    = Some File
  ∧ (call writing_typst tight f1).1 = (call writing_typst tight f2).1
  ∧ (∃ n, (call writing_typst tight f1).1 = Returned [n])
  ∧ spawned (trace (call writing_typst tight f1).2)
    = spawned (trace (call writing_typst tight f2).2).
Proof.
  intros f1 f2.
  assert (Hc2 : creatable f2 (tmpdir tight) = true) by (vm_compute; reflexivity).
  destruct (C2_deterministic writing_typst tight f1 f2
              (lit "/usr/bin/typst") (utf8 (typst_doc tight))
              eq_refl eq_refl eq_refl Hc2)
    as (key & target & _ & _ & H).
  destruct (H f1 (or_introl eq_refl)) as [Hs1 Hn1].
  destruct (H f2 (or_intror eq_refl)) as [Hs2 Hn2].
  specialize (Hn1 eq_refl). specialize (Hn2 eq_refl).
  split; [exact Hc2|]. split; [vm_compute; reflexivity|].
  split; [congruence|]. split; [eexists; exact Hn1 | congruence].
Defined.

(** C3: the extension is chosen by the builder's format alone: [.svg]
    for html, [.pdf] for pdf and [.png] for every other format. *)
Theorem C3_extension_mapping (sys : System) (self : Directive) (f : fsmap)
    (exe : pystr) (data : bytes) :
  which sys (config_typst_math_typst self) = Some exe →
  encode (typst_doc self) = Some data →
  creatable f (tmpdir self) = true →
  ∃ ext,
    spawned (trace (call sys self f).2)
    = [([Some exe; Some (lit "compile"); Some (lit "-");
         Some (path_str (filepath self data) ++ ext)], tmpdir self)]
    ∧ (builder_format self = lit "html" → ext = lit ".svg")
    ∧ (builder_format self = lit "pdf" → ext = lit ".pdf")
    ∧ (builder_format self ≠ lit "html" → builder_format self ≠ lit "pdf" →
       ext = lit ".png").
Proof.
  intros Hw He Hc. exists (extension (builder_format self)). split.
  - apply (call_spawned sys self f exe data Hw He Hc).
  - apply extension_cases.
Qed.

Lemma C3_extension_mapping_witness :
  let latex := with_format pythagoras (lit "latex") in
  builder_format latex ≠ lit "html"
  ∧ builder_format latex ≠ lit "pdf"
  ∧ spawned (trace (call writing_typst latex ∅).2)
    = [([Some (lit "/usr/bin/typst"); Some (lit "compile"); Some (lit "-");
         Some (lit "/srv/build/assets/typst_math/a532776cccd0dc5594a3b6ac1d74eff710bc2762.png")],
        tmpdir latex)].
Proof.
  intros latex.
  assert (Hw : which writing_typst (config_typst_math_typst latex)
               = Some (lit "/usr/bin/typst")) by reflexivity.
  assert (He : encode (typst_doc latex) = Some (utf8 (typst_doc latex)))
    by reflexivity.
  assert (Hc : creatable ∅ (tmpdir latex) = true) by reflexivity.
  destruct (C3_extension_mapping writing_typst latex ∅
              (lit "/usr/bin/typst") (utf8 (typst_doc latex)) Hw He Hc)
    as (ext & Hs & _ & _ & Hpng).
  assert (H1 : builder_format latex ≠ lit "html") by discriminate.
  assert (H2 : builder_format latex ≠ lit "pdf") by discriminate.
  split; [exact H1|]. split; [exact H2|].
  rewrite Hs, (Hpng H1 H2). vm_compute. reflexivity.
Defined.

(** C4: whatever the file system holds, the artifact included, a call
    makes one [Popen] call, with the command [typst compile - path] and
    nothing else, in the cache directory; when the compiler starts, the
    call hands the encoded document to [communicate], which returns
    when the compiler has exited, and only then returns itself.  Apart
    from a [mkdir] of a missing cache directory the trace holds nothing
    else. *)
Theorem C4_compiles_every_time (sys : System) (self : Directive) (f : fsmap)
    (exe : pystr) (data : bytes) :
  which sys (config_typst_math_typst self) = Some exe →
  encode (typst_doc self) = Some data →
  creatable f (tmpdir self) = true →
  starts sys self f exe data →
  let artifact :=
    path_str (filepath self data) ++ extension (builder_format self) in
  let command := [exe; lit "compile"; lit "-"; artifact] in
  let r := child sys command (tmpdir self) data (prepared f (tmpdir self)) in
  ∃ nodes w,
    call sys self f = (Returned nodes, w)
    ∧ trace w
      = (if path_exists f (tmpdir self) then [] else [EvMkdir (tmpdir self)])
        ++ [EvPopen (List.map Some command) (tmpdir self);
            EvCommunicate data r.2]
    ∧ spawned (trace w) = [(List.map Some command, tmpdir self)]
    ∧ communicated (trace w) = [data]
    ∧ fs w = r.1.
Proof.
  intros Hw He Hc Hs artifact command r.
  rewrite (call_returns sys self f exe data Hw He Hc Hs). cbv zeta.
  eexists. eexists. split; [reflexivity|]. cbn [trace fs].
  rewrite spawned_after_mkdir, communicated_after_mkdir.
  repeat split; reflexivity.
Qed.

Lemma C4_compiles_every_time_witness :
  let f := fs (call writing_typst pythagoras ∅).2 in
  let artifact :=
    lit "/srv/build/assets/typst_math/a532776cccd0dc5594a3b6ac1d74eff710bc2762.svg" in
  creatable f (tmpdir pythagoras) = true
  ∧ starts writing_typst pythagoras f (lit "/usr/bin/typst")
      (utf8 (typst_doc pythagoras))
  ∧ f !! split_path artifact [] = Some File
  ∧ spawned (trace (call writing_typst pythagoras f).2)
    = [([Some (lit "/usr/bin/typst"); Some (lit "compile"); Some (lit "-");
         Some artifact], tmpdir pythagoras)]
  ∧ communicated (trace (call writing_typst pythagoras f).2)
    = [utf8 (typst_doc pythagoras)].
Proof.
  intros f artifact.
  assert (Hw : which writing_typst (config_typst_math_typst pythagoras)
               = Some (lit "/usr/bin/typst")) by reflexivity.
  assert (He : encode (typst_doc pythagoras)
               = Some (utf8 (typst_doc pythagoras))) by reflexivity.
  assert (Hc : creatable f (tmpdir pythagoras) = true)
    by (vm_compute; reflexivity).
  assert (Hst : starts writing_typst pythagoras f (lit "/usr/bin/typst")
                  (utf8 (typst_doc pythagoras))) by reflexivity.
  destruct (C4_compiles_every_time writing_typst pythagoras f
              (lit "/usr/bin/typst") (utf8 (typst_doc pythagoras)) Hw He Hc Hst)
    as (nodes & w & Hcall & _ & Hs & Hi & _).
  rewrite Hcall. cbn [snd]. rewrite Hs, Hi.
  split; [exact Hc|]. split; [exact Hst|]. split; [vm_compute; reflexivity|].
  split; [vm_compute|]; reflexivity.
Defined.

Lemma image_node_defaults (uri : pystr) (k : string) (v : attr) :
  attributes (image_node uri) !! k = Some v →
  k ≠ "uri"%string → k ≠ "classes"%string → k ≠ "align"%string →
  v = AList [].
Proof.
  unfold image_node, setitem, nodes_image. cbn [attributes].
  intros H Hu Hc Ha.
  rewrite !lookup_insert in H.
  repeat (case_decide; [congruence|]).
  repeat (case_decide; [congruence|]).
  rewrite lookup_empty in H. discriminate.
Qed.

(** C5: a call whose compiler starts returns a list of one image node
    whatever the compiler then did, its exit status and what it wrote
    included: the node carries the artifact path with the extension
    [.*] as uri, the class typst-math and the alignment center, and its
    other attributes are the empty lists every new element has. *)
Theorem C5_single_image_node (sys : System) (self : Directive) (f : fsmap)
    (exe : pystr) (data : bytes) :
  which sys (config_typst_math_typst self) = Some exe →
  encode (typst_doc self) = Some data →
  creatable f (tmpdir self) = true →
  starts sys self f exe data →
  ∃ n,
    (call sys self f).1 = Returned [n]
    ∧ tagname n = "image"%string
    ∧ attributes n !! "uri"
      = Some (AStr (path_str (filepath self data) ++ lit ".*"))
    ∧ attributes n !! "classes" = Some (AList [lit "typst-math"])
    ∧ attributes n !! "align" = Some (AStr (lit "center"))
    ∧ ∀ k v, attributes n !! k = Some v →
        k ≠ "uri"%string → k ≠ "classes"%string → k ≠ "align"%string →
        v = AList [].
Proof.
  intros Hw He Hc Hs.
  rewrite (call_returns sys self f exe data Hw He Hc Hs). cbv zeta.
  eexists. split; [reflexivity|]. split; [reflexivity|].
  split; [|split; [|split]].
  - unfold image_node, setitem. cbn [attributes].
    rewrite !lookup_insert_ne by discriminate. apply lookup_insert_eq.
  - unfold image_node, setitem. cbn [attributes].
    rewrite lookup_insert_ne by discriminate. apply lookup_insert_eq.
  - unfold image_node, setitem. cbn [attributes]. apply lookup_insert_eq.
  - apply image_node_defaults.
Qed.

Lemma C5_single_image_node_witness :
  (child failing_typst [] [] [] ∅).2 = 1
  ∧ starts failing_typst pythagoras ∅ (lit "/usr/bin/typst")
      (utf8 (typst_doc pythagoras))
  ∧ fs (call failing_typst pythagoras ∅).2
      !! split_path
           (lit "/srv/build/assets/typst_math/a532776cccd0dc5594a3b6ac1d74eff710bc2762.svg")
           []
    = None
  ∧ ∃ n, (call failing_typst pythagoras ∅).1 = Returned [n]
         ∧ attributes n !! "uri"
           = Some (AStr (lit "/srv/build/assets/typst_math/a532776cccd0dc5594a3b6ac1d74eff710bc2762.*"))
         ∧ attributes n !! "classes" = Some (AList [lit "typst-math"])
         ∧ attributes n !! "align" = Some (AStr (lit "center")).
Proof.
  assert (Hw : which failing_typst (config_typst_math_typst pythagoras)
               = Some (lit "/usr/bin/typst")) by reflexivity.
  assert (He : encode (typst_doc pythagoras)
               = Some (utf8 (typst_doc pythagoras))) by reflexivity.
  assert (Hc : creatable ∅ (tmpdir pythagoras) = true) by reflexivity.
  assert (Hst : starts failing_typst pythagoras ∅ (lit "/usr/bin/typst")
                  (utf8 (typst_doc pythagoras))) by reflexivity.
  destruct (C5_single_image_node failing_typst pythagoras ∅
              (lit "/usr/bin/typst") (utf8 (typst_doc pythagoras)) Hw He Hc Hst)
    as (n & Hn & _ & Hu & Hcl & Ha & _).
  split; [reflexivity|]. split; [exact Hst|]. split; [vm_compute; reflexivity|].
  exists n. split; [exact Hn|]. split; [|split; assumption].
  rewrite Hu. vm_compute. reflexivity.
Defined.

Lemma prepared_missing (f : fsmap) (p d : Path) :
  stat f p = None → In d (prefixes p) → prepared f p !! d = Some Dir.
Proof.
  intros Hs Hd. unfold prepared, path_exists. rewrite Hs.
  apply fold_dirs_makes, Hd.
Qed.

Lemma prepared_present (f : fsmap) (p : Path) :
  stat f p = Some Dir → prepared f p = f ∧ path_exists f p = true.
Proof.
  intros Hs. unfold prepared, path_exists. rewrite Hs. split; reflexivity.
Qed.

Lemma writing_typst_keeps_dirs : keeps_dirs writing_typst.
Proof.
  intros args cwd input g p Hp. cbn [child writing_typst].
  set (out := split_path (List.last args []) []).
  destruct (g !! out) as [[|]|] eqn:E; cbn [fst].
  - rewrite lookup_insert_ne by congruence. exact Hp.
  - exact Hp.
  - rewrite lookup_insert_ne by congruence. exact Hp.
Qed.

(** C7: with a compiler that removes no directory, a call on a file
    system without the cache directory begins with the [mkdir], before
    any [Popen], and leaves the cache directory and all its ancestors
    as directories; a call that finds the directory makes no [mkdir] and
    leaves it in place, and what it may raise comes from the encoding
    or out of [Popen], not from finding the directory there. *)
Theorem C7_cache_directory (sys : System) (self : Directive) (f : fsmap) :
  creatable f (tmpdir self) = true →
  keeps_dirs sys →
  let r := call sys self f in
  (stat f (tmpdir self) = None →
     (∀ d, In d (prefixes (tmpdir self)) → fs r.2 !! d = Some Dir)
     ∧ ∃ rest, trace r.2 = EvMkdir (tmpdir self) :: rest ∧ made rest = [])
  ∧ (stat f (tmpdir self) = Some Dir →
     fs r.2 !! tmpdir self = Some Dir ∧ made (trace r.2) = []
     ∧ ∀ e, r.1 = Raised e →
         e = UnicodeEncodeError ∨ spawned (trace r.2) ≠ []).
Proof.
  intros Hc Hk r. subst r. rewrite (call_creatable sys self f Hc). cbv zeta.
  pose proof (tmpdir_nonempty self) as Hne.
  assert (Hstat : stat f (tmpdir self) = f !! tmpdir self)
    by (destruct (tmpdir self); [congruence | reflexivity]).
  destruct (encode (typst_doc self)) as [data|];
    [destruct (which sys (config_typst_math_typst self)) as [exe|];
     [destruct (exec sys _ (tmpdir self) (prepared f (tmpdir self)))|]|];
    cbn [fst snd fs trace].
  - split.
    + intros Hs. split.
      * intros d Hd. apply prepared_missing; assumption.
      * unfold path_exists. rewrite Hs. eexists. split; reflexivity.
    + intros Hs. destruct (prepared_present f (tmpdir self) Hs) as [-> ->].
      split; [|split; [reflexivity|]].
      * rewrite <- Hstat. exact Hs.
      * intros e' _. right. discriminate.
  - split.
    + intros Hs. split.
      * intros d Hd. apply Hk, prepared_missing; assumption.
      * unfold path_exists. rewrite Hs. eexists. split; reflexivity.
    + intros Hs. destruct (prepared_present f (tmpdir self) Hs) as [-> ->].
      split; [|split; [reflexivity|]].
      * apply Hk. rewrite <- Hstat. exact Hs.
      * intros e' He'. discriminate.
  - split.
    + intros Hs. split.
      * intros d Hd. apply prepared_missing; assumption.
      * unfold path_exists. rewrite Hs. eexists. split; reflexivity.
    + intros Hs. destruct (prepared_present f (tmpdir self) Hs) as [-> ->].
      split; [|split; [reflexivity|]].
      * rewrite <- Hstat. exact Hs.
      * intros e' _. right. discriminate.
  - split.
    + intros Hs. split.
      * intros d Hd. apply prepared_missing; assumption.
      * unfold path_exists. rewrite Hs. eexists. split; reflexivity.
    + intros Hs. destruct (prepared_present f (tmpdir self) Hs) as [-> ->].
      split; [|split; [reflexivity|]].
      * rewrite <- Hstat. exact Hs.
      * intros e' He'. left. congruence.
Qed.

Lemma C7_cache_directory_witness :
  let f1 : fsmap := ∅ in
  let r1 := call writing_typst pythagoras f1 in
  let r2 := call writing_typst pythagoras (fs r1.2) in
  creatable f1 (tmpdir pythagoras) = true
  ∧ stat f1 (tmpdir pythagoras) = None
  ∧ fs r1.2 !! [lit "srv"] = Some Dir
  ∧ fs r1.2 !! [lit "srv"; lit "build"; lit "assets"] = Some Dir
  ∧ fs r1.2 !! tmpdir pythagoras = Some Dir
  ∧ made (trace r1.2) = [tmpdir pythagoras]
  ∧ stat (fs r1.2) (tmpdir pythagoras) = Some Dir
  ∧ made (trace r2.2) = []
  ∧ fs r2.2 !! tmpdir pythagoras = Some Dir.
Proof.
  intros f1 r1 r2.
  assert (Hc1 : creatable f1 (tmpdir pythagoras) = true) by reflexivity.
  assert (Hs1 : stat f1 (tmpdir pythagoras) = None) by reflexivity.
  assert (Hc2 : creatable (fs r1.2) (tmpdir pythagoras) = true)
    by (vm_compute; reflexivity).
  assert (Hs2 : stat (fs r1.2) (tmpdir pythagoras) = Some Dir)
    by (vm_compute; reflexivity).
  destruct (C7_cache_directory writing_typst pythagoras f1 Hc1
              writing_typst_keeps_dirs) as (Hmissing & _).
  destruct (Hmissing Hs1) as (Hdirs & rest & Htr & Hrest).
  destruct (C7_cache_directory writing_typst pythagoras (fs r1.2) Hc2
              writing_typst_keeps_dirs) as (_ & Hpresent).
  destruct (Hpresent Hs2) as (Hdir2 & Hmade2 & _).
  split; [exact Hc1|]. split; [exact Hs1|].
  split; [apply Hdirs; vm_compute; tauto|].
  split; [apply Hdirs; vm_compute; tauto|].
  split; [apply Hdirs; vm_compute; tauto|].
  split; [fold r1 in Htr; rewrite Htr; cbn [made flat_map app];
          fold (made rest); rewrite Hrest; reflexivity|].
  split; [exact Hs2|]. split; [exact Hmade2 | exact Hdir2].
Defined.

(** C8, as the code has it: when the configured name resolves to no
    executable, a call with an encodable content and a creatable cache
    directory first makes the cache directory, then calls [Popen] with
    [None] in place of the executable, and that call raises [TypeError]:
    no child is started, nothing is handed to [communicate] and no node
    is returned. *)
Theorem C8_missing_compiler (sys : System) (self : Directive) (f : fsmap)
    (data : bytes) :
  which sys (config_typst_math_typst self) = None →
  encode (typst_doc self) = Some data →
  creatable f (tmpdir self) = true →
  let r := call sys self f in
  r.1 = Raised TypeError
  ∧ spawned (trace r.2)
    = [([None; Some (lit "compile"); Some (lit "-");
         Some (path_str (filepath self data)
               ++ extension (builder_format self))], tmpdir self)]
  ∧ communicated (trace r.2) = []
  ∧ made (trace r.2) = (if path_exists f (tmpdir self) then [] else [tmpdir self])
  ∧ fs r.2 = prepared f (tmpdir self)
  ∧ stat (fs r.2) (tmpdir self) = Some Dir.
Proof.
  intros Hw He Hc r. subst r.
  rewrite (call_without_compiler sys self f data Hw He Hc). cbv zeta.
  cbn [fst snd fs trace].
  rewrite spawned_after_mkdir, communicated_after_mkdir.
  rewrite made_before_spawn by reflexivity.
  repeat split.
  apply prepared_is_dir; [apply tmpdir_nonempty | exact Hc].
Qed.

Lemma C8_missing_compiler_witness :
  which no_typst (config_typst_math_typst pythagoras) = None
  ∧ creatable ∅ (tmpdir pythagoras) = true
  ∧ (call no_typst pythagoras ∅).1 = Raised TypeError
  ∧ made (trace (call no_typst pythagoras ∅).2) = [tmpdir pythagoras]
  ∧ communicated (trace (call no_typst pythagoras ∅).2) = [].
Proof.
  assert (Hw : which no_typst (config_typst_math_typst pythagoras) = None)
    by reflexivity.
  assert (He : encode (typst_doc pythagoras)
               = Some (utf8 (typst_doc pythagoras))) by reflexivity.
  assert (Hc : creatable ∅ (tmpdir pythagoras) = true) by reflexivity.
  destruct (C8_missing_compiler no_typst pythagoras ∅
              (utf8 (typst_doc pythagoras)) Hw He Hc)
    as (Hr & _ & Hi & Hm & _).
  split; [exact Hw|]. split; [exact Hc|]. split; [exact Hr|].
  split; [exact Hm | exact Hi].
Defined.

(** C8 as stated fails: without typst on the search path the call does
    raise, but only out of [subprocess.Popen], which it has called with
    the command [None compile - path] after making the cache directory. *)
Lemma C8_reported_late :
  which no_typst (config_typst_math_typst pythagoras) = None
  ∧ call no_typst pythagoras ∅
    = (Raised TypeError,
       World (with_dirs ∅ (tmpdir pythagoras))
         [EvMkdir (tmpdir pythagoras);
          EvPopen
            [None; Some (lit "compile"); Some (lit "-");
             Some (lit "/srv/build/assets/typst_math/a532776cccd0dc5594a3b6ac1d74eff710bc2762.svg")]
            (tmpdir pythagoras)])
  ∧ ¬ reported_before_spawn (call no_typst pythagoras ∅).
Proof.
  split; [reflexivity|]. split; [vm_compute; reflexivity|].
  intros [_ H]. vm_compute in H. discriminate.
Qed.

(** C9: the Content Key does not depend on the format.  Under any two
    formats [Popen] is given the same path up to the extension, and the
    calls whose compiler starts return the same node. *)
Theorem C9_key_ignores_format (sys : System) (self : Directive)
    (f1 f2 : fsmap) (fmt1 fmt2 exe : pystr) (data : bytes) :
  which sys (config_typst_math_typst self) = Some exe →
  encode (typst_doc self) = Some data →
  creatable f1 (tmpdir self) = true →
  creatable f2 (tmpdir self) = true →
  let base := path_str (tmpdir self / SHA1.hexdigest data)%path in
  let r1 := call sys (with_format self fmt1) f1 in
  let r2 := call sys (with_format self fmt2) f2 in
  spawned (trace r1.2)
  = [([Some exe; Some (lit "compile"); Some (lit "-");
       Some (base ++ extension fmt1)], tmpdir self)]
  ∧ spawned (trace r2.2)
    = [([Some exe; Some (lit "compile"); Some (lit "-");
         Some (base ++ extension fmt2)], tmpdir self)]
  ∧ (starts sys (with_format self fmt1) f1 exe data →
     r1.1 = Returned [image_node (base ++ lit ".*")])
  ∧ (starts sys (with_format self fmt1) f1 exe data →
     starts sys (with_format self fmt2) f2 exe data →
     r2.1 = r1.1).
Proof.
  intros Hw He Hc1 Hc2 base r1 r2. subst r1 r2.
  split; [|split; [|split]].
  - apply (call_spawned sys (with_format self fmt1) f1 exe data Hw He Hc1).
  - apply (call_spawned sys (with_format self fmt2) f2 exe data Hw He Hc2).
  - intros Hs1.
    rewrite (call_returns sys (with_format self fmt1) f1 exe data Hw He Hc1 Hs1).
    reflexivity.
  - intros Hs1 Hs2.
    rewrite (call_returns sys (with_format self fmt1) f1 exe data Hw He Hc1 Hs1).
    rewrite (call_returns sys (with_format self fmt2) f2 exe data Hw He Hc2 Hs2).
    reflexivity.
Qed.

Lemma C9_key_ignores_format_witness :
  let base :=
    lit "/srv/build/assets/typst_math/a532776cccd0dc5594a3b6ac1d74eff710bc2762" in
  let html := with_format pythagoras (lit "html") in
  let pdf := with_format pythagoras (lit "pdf") in
  spawned (trace (call writing_typst html ∅).2)
  = [([Some (lit "/usr/bin/typst"); Some (lit "compile"); Some (lit "-");
       Some (base ++ lit ".svg")], tmpdir pythagoras)]
  ∧ spawned (trace (call writing_typst pdf ∅).2)
    = [([Some (lit "/usr/bin/typst"); Some (lit "compile"); Some (lit "-");
         Some (base ++ lit ".pdf")], tmpdir pythagoras)]
  ∧ starts writing_typst html ∅ (lit "/usr/bin/typst")
      (utf8 (typst_doc pythagoras))
  ∧ starts writing_typst pdf ∅ (lit "/usr/bin/typst")
      (utf8 (typst_doc pythagoras))
  ∧ (call writing_typst pdf ∅).1 = (call writing_typst html ∅).1.
Proof.
  intros base html pdf.
  assert (Hw : which writing_typst (config_typst_math_typst pythagoras)
               = Some (lit "/usr/bin/typst")) by reflexivity.
  assert (He : encode (typst_doc pythagoras)
               = Some (utf8 (typst_doc pythagoras))) by reflexivity.
  assert (Hc : creatable ∅ (tmpdir pythagoras) = true) by reflexivity.
  assert (Hs1 : starts writing_typst html ∅ (lit "/usr/bin/typst")
                  (utf8 (typst_doc pythagoras))) by reflexivity.
  assert (Hs2 : starts writing_typst pdf ∅ (lit "/usr/bin/typst")
                  (utf8 (typst_doc pythagoras))) by reflexivity.
  destruct (C9_key_ignores_format writing_typst pythagoras ∅ ∅
              (lit "html") (lit "pdf") (lit "/usr/bin/typst")
              (utf8 (typst_doc pythagoras)) Hw He Hc Hc)
    as (H1 & H2 & _ & Heq).
  fold html in H1. fold pdf in H2.
  split; [rewrite H1; vm_compute; reflexivity|].
  split; [rewrite H2; vm_compute; reflexivity|].
  split; [exact Hs1|]. split; [exact Hs2|].
  exact (Heq Hs1 Hs2).
Defined.

(** C10: the bytes hashed into the file name are the bytes written to
    the compiler's standard input: one encoding of the one document.
    Whatever a call hands to [communicate] is the data whose digest
    names the file in the command; a call whose compiler starts hands
    it over once and returns the node named by the same digest. *)
Theorem C10_hashed_is_compiled (sys : System) (self : Directive) (f : fsmap)
    (exe : pystr) (data : bytes) :
  which sys (config_typst_math_typst self) = Some exe →
  encode (typst_doc self) = Some data →
  creatable f (tmpdir self) = true →
  let r := call sys self f in
  spawned (trace r.2)
  = [([Some exe; Some (lit "compile"); Some (lit "-");
       Some (path_str (tmpdir self / SHA1.hexdigest data)%path
             ++ extension (builder_format self))], tmpdir self)]
  ∧ (∀ input, In input (communicated (trace r.2)) → input = data)
  ∧ (starts sys self f exe data →
     communicated (trace r.2) = [data]
     ∧ r.1 = Returned
               [image_node
                  (path_str (tmpdir self / SHA1.hexdigest data)%path
                   ++ lit ".*")]).
Proof.
  intros Hw He Hc r. subst r.
  destruct (call_spawned sys self f exe data Hw He Hc) as [Hsp Hin].
  split; [exact Hsp|]. split; [exact Hin|].
  intros Hs. rewrite (call_returns sys self f exe data Hw He Hc Hs). cbv zeta.
  cbn [fst snd trace]. rewrite communicated_after_mkdir.
  split; reflexivity.
Qed.

Lemma C10_hashed_is_compiled_witness :
  encode (typst_doc spaced) = Some (utf8 (typst_doc spaced))
  ∧ starts writing_typst spaced ∅ (lit "/usr/bin/typst")
      (utf8 (typst_doc spaced))
  ∧ communicated (trace (call writing_typst spaced ∅).2)
    = [utf8 (typst_doc spaced)]
  ∧ SHA1.hexdigest (utf8 (typst_doc spaced))
    = lit "087efb41599e6de383ace68de1f2ceaf60d109d6"
  ∧ spawned (trace (call writing_typst spaced ∅).2)
    = [([Some (lit "/usr/bin/typst"); Some (lit "compile"); Some (lit "-");
         Some (lit "/srv/build/assets/typst_math/087efb41599e6de383ace68de1f2ceaf60d109d6.svg")],
        tmpdir spaced)].
Proof.
  assert (Hw : which writing_typst (config_typst_math_typst spaced)
               = Some (lit "/usr/bin/typst")) by reflexivity.
  assert (He : encode (typst_doc spaced) = Some (utf8 (typst_doc spaced)))
    by reflexivity.
  assert (Hc : creatable ∅ (tmpdir spaced) = true) by reflexivity.
  assert (Hst : starts writing_typst spaced ∅ (lit "/usr/bin/typst")
                  (utf8 (typst_doc spaced))) by reflexivity.
  destruct (C10_hashed_is_compiled writing_typst spaced ∅
              (lit "/usr/bin/typst") (utf8 (typst_doc spaced)) Hw He Hc)
    as (Hs & _ & Hret).
  destruct (Hret Hst) as [Hi _].
  split; [exact He|]. split; [exact Hst|]. split; [exact Hi|].
  split; [vm_compute; reflexivity|].
  rewrite Hs. vm_compute. reflexivity.
Defined.

(** ** Collisions *)












Lemma typst_doc_inj (self1 self2 : Directive) :
  typst_doc self1 = typst_doc self2 →
  join newline (content self1) = join newline (content self2).
Proof.
  unfold typst_doc. intros E.
  repeat apply app_inv_head in E.
  apply app_inv_tail in E. exact E.
Qed.


(** * Beyond the claims *)

(** ** All of [run], on any file system *)

Lemma makedirs_raises (ds : list Path) (f : fsmap) (e : exn) :
  makedirs ds f = Raised e → e = NotADirectoryError.
Proof.
  revert f. induction ds as [|d ds IH]; intros f; simpl; [discriminate|].
  destruct (f !! d) as [[|]|]; try apply IH. congruence.
Qed.

Lemma makedirs_extends (ds : list Path) (f g : fsmap) :
  makedirs ds f = Returned g →
  f ⊆ g
  ∧ (∀ d, In d ds → g !! d = Some Dir)
  ∧ (∀ q, g !! q ≠ f !! q → In q ds ∧ f !! q = None).
Proof.
  revert f. induction ds as [|d ds IH]; intros f; simpl.
  - intros [= <-]. split; [reflexivity|]. split; [tauto | congruence].
  - destruct (f !! d) as [[|]|] eqn:E; [discriminate| |]; intros H;
      destruct (IH _ H) as (Hsub & Hin & Hch).
    + split; [exact Hsub|]. split.
      * intros q [<-|Hq]; [|apply Hin, Hq].
        eapply lookup_weaken; [exact E | exact Hsub].
      * intros q Hq. destruct (Hch q Hq). tauto.
    + assert (Hf : f ⊆ <[d := Dir]> f) by (apply insert_subseteq, E).
      split; [etrans; eassumption|]. split.
      * intros q [<-|Hq]; [|apply Hin, Hq].
        eapply lookup_weaken; [apply lookup_insert_eq | exact Hsub].
      * intros q Hq. destruct (decide (d = q)) as [<-|Hne].
        -- split; [left; reflexivity | exact E].
        -- destruct (Hch q) as [Hi Hn].
           { rewrite lookup_insert_ne by exact Hne. exact Hq. }
           rewrite lookup_insert_ne in Hn by exact Hne.
           split; [right; exact Hi | exact Hn].
Qed.

Lemma target_chosen (self : Directive) (data : bytes) :
  (if decide (builder_format self = lit "html")
   then lift (with_suffix (filepath self data) (lit ".svg"))
   else if decide (builder_format self = lit "pdf")
   then lift (with_suffix (filepath self data) (lit ".pdf"))
   else lift (with_suffix (filepath self data) (lit ".png")))
  = ret (tmpdir self / (filename data ++ extension (builder_format self)))%path.
Proof.
  unfold extension.
  destruct (decide (builder_format self = lit "html"));
    [|destruct (decide (builder_format self = lit "pdf"))];
    rewrite with_suffix_filepath by reflexivity; reflexivity.
Qed.

(** Lines 59 to 80, whatever lines 45 to 55 have left. *)
Lemma run_tail (sys : System) (self : Directive) (g : fsmap)
    (pre : list event) (k : unit → M (list node)) :
  (∀ u w, k u w =
     (data ← str_encode (typst_doc self);
      let path := filepath self data in
      let command :=
        [which sys (config_typst_math_typst self); Some (lit "compile");
         Some (lit "-")] in
      target ←
        (if decide (builder_format self = lit "html")
         then lift (with_suffix path (lit ".svg"))
         else if decide (builder_format self = lit "pdf")
         then lift (with_suffix path (lit ".pdf"))
         else lift (with_suffix path (lit ".png")));
      let command := command ++ [Some (path_str target)] in
      proc ← Popen sys command (tmpdir self);
      input ← str_encode (typst_doc self);
      communicate sys proc input;;
      let img_node := nodes_image in
      uri ← lift (with_suffix path (lit ".*"));
      let img_node := setitem img_node "uri" (AStr (path_str uri)) in
      img_node ← lift (append_item img_node "classes" (lit "typst-math"));
      let img_node := setitem img_node "align" (AStr (lit "center")) in
      ret [img_node]) w) →
  k () (World g pre) = run_from sys self g pre.
Proof.
  intros Hk. rewrite Hk. unfold run_from.
  unfold mbind, M_bind, bind, str_encode.
  destruct (encode (typst_doc self)) as [data|]; [|reflexivity].
  cbn [ret]. rewrite target_chosen. cbn [ret].
  rewrite path_str_suffixed.
  unfold Popen, mbind, M_bind, bind, emit, get_fs. cbn [fs trace app str_args].
  destruct (which sys (config_typst_math_typst self)) as [exe|];
    [|reflexivity].
  cbn [fs trace app str_args ret].
  destruct (stat g (tmpdir self)) as [[|]|]; [reflexivity| |reflexivity].
  destruct (exec sys _ (tmpdir self) g); [reflexivity|].
  cbn [ret].
  unfold communicate, mbind, M_bind, bind, emit, get_fs, put_fs.
  cbn [fs trace ret argv proc_cwd].
  rewrite with_suffix_filepath by reflexivity.
  cbn [lift ret]. rewrite path_str_suffixed.
  rewrite append_classes. cbn [lift ret].
  rewrite <- app_assoc. reflexivity.
Qed.

Lemma call_cases (sys : System) (self : Directive) (f : fsmap) :
  call sys self f =
    if path_exists f (tmpdir self) then run_from sys self f []
    else match mkdir_parents (tmpdir self) f with
         | Returned g => run_from sys self g [EvMkdir (tmpdir self)]
         | Raised e => (Raised e, World f [EvMkdir (tmpdir self)])
         end.
Proof.
  unfold call, run.
  unfold mbind at 1 2. unfold M_bind at 1 2. unfold bind at 1 2.
  unfold get_fs. cbn [fs trace].
  destruct (path_exists f (tmpdir self)) eqn:E; cbn [negb].
  - cbn [ret].
    apply (run_tail sys self f [] (fun _ => _)). intros u w. reflexivity.
  - unfold mkdir at 1. unfold mbind at 1 2 3. unfold M_bind at 1 2 3.
    unfold bind at 1 2 3. unfold emit, get_fs, put_fs. cbn [fs trace app].
    destruct (mkdir_parents (tmpdir self) f) as [g|e]; cbn [lift ret raise].
    + apply (run_tail sys self g [EvMkdir (tmpdir self)] (fun _ => _)).
      intros u w. reflexivity.
    + reflexivity.
Qed.

Lemma stat_lookup (f : fsmap) (p : Path) : p ≠ [] → stat f p = f !! p.
Proof. destruct p; [congruence | reflexivity]. Qed.

Lemma ok_after_insert (f : fsmap) (d q : Path) :
  f !! d = None →
  match <[d := Dir]> f !! q with Some File => false | _ => true end
  = match f !! q with Some File => false | _ => true end.
Proof.
  intros E. destruct (decide (d = q)) as [<-|Hne].
  - rewrite lookup_insert_eq, E. reflexivity.
  - rewrite lookup_insert_ne by exact Hne. reflexivity.
Qed.

Lemma forallb_pointwise {A} (p q : A → bool) (l : list A) :
  (∀ x, p x = q x) → List.forallb p l = List.forallb q l.
Proof.
  intros H. induction l as [|x l IH]; simpl; [reflexivity|].
  rewrite H, IH. reflexivity.
Qed.

Lemma makedirs_blocked (ds : list Path) (f : fsmap) :
  List.forallb
    (fun d => match f !! d with Some File => false | _ => true end) ds = false →
  makedirs ds f = Raised NotADirectoryError.
Proof.
  revert f. induction ds as [|d ds IH]; intros f; simpl; [discriminate|].
  destruct (f !! d) as [[|]|] eqn:E; simpl; intros H.
  - reflexivity.
  - apply IH, H.
  - apply IH.
    rewrite (forallb_pointwise _
               (fun q => match f !! q with Some File => false | _ => true end));
      [exact H | intros q; apply ok_after_insert, E].
Qed.

Lemma mkdir_parents_missing (f : fsmap) (p : Path) :
  path_exists f p = false →
  mkdir_parents p f
  = if creatable f p then Returned (with_dirs f p)
    else Raised NotADirectoryError.
Proof.
  unfold path_exists, mkdir_parents.
  destruct (stat f p); [discriminate|]. intros _.
  destruct (creatable f p) eqn:E.
  - apply makedirs_creatable, E.
  - apply makedirs_blocked, E.
Qed.

Lemma run_from_trace (sys : System) (self : Directive) (g : fsmap)
    (pre : list event) :
  ∃ tail, trace (run_from sys self g pre).2 = pre ++ tail
          ∧ made tail = []
          ∧ (length (spawned tail) <= 1)%nat
          ∧ (length (communicated tail) <= 1)%nat
          ∧ (communicated tail ≠ [] → ∃ n, (run_from sys self g pre).1 = Returned [n])
          ∧ (∀ c d, In (c, d) (spawned tail) →
               d = tmpdir self
               ∧ ∃ target, c = [which sys (config_typst_math_typst self);
                                Some (lit "compile"); Some (lit "-");
                                Some target]).
Proof.
  unfold run_from.
  destruct (encode (typst_doc self)) as [data|].
  - destruct (which sys (config_typst_math_typst self)) as [exe|];
      [destruct (stat g (tmpdir self)) as [[|]|];
       [|destruct (exec sys _ (tmpdir self) g)|]|];
      cbn [fst snd trace]; eexists; (split; [reflexivity|]);
      cbn [made spawned communicated flat_map app length];
      (split; [reflexivity|]); (split; [lia|]); (split; [lia|]);
      (split; [first [congruence | intros _; eexists; reflexivity]|]);
      intros c d [[= <- <-]|[]]; (split; [reflexivity|]);
      eexists; reflexivity.
  - cbn [fst snd trace]. exists []. rewrite app_nil_r.
    split; [reflexivity|]. split; [reflexivity|].
    cbn. split; [lia|]. split; [lia|]. split; [congruence|]. tauto.
Qed.

Lemma path_exists_stat (f : fsmap) (p : Path) :
  path_exists f p = true ↔ stat f p ≠ None.
Proof.
  unfold path_exists. destruct (stat f p); split; congruence.
Qed.

Lemma exec_exn_os (e : exec_error) :
  exec_exn e ≠ TypeError ∧ exec_exn e ≠ UnicodeEncodeError
  ∧ exec_exn e ≠ ValueError ∧ exec_exn e ≠ KeyError
  ∧ exec_exn e ≠ AttributeError.
Proof. destruct e; repeat split; discriminate. Qed.

Lemma run_from_causes (sys : System) (self : Directive) (g : fsmap)
    (pre : list event) :
  let r := run_from sys self g pre in
  (∀ nodes, r.1 = Returned nodes → ∃ n, nodes = [n])
  ∧ (r.1 = Raised TypeError → which sys (config_typst_math_typst self) = None)
  ∧ (r.1 = Raised UnicodeEncodeError → encode (typst_doc self) = None)
  ∧ r.1 ≠ Raised ValueError
  ∧ r.1 ≠ Raised KeyError
  ∧ r.1 ≠ Raised AttributeError.
Proof.
  unfold run_from.
  destruct (encode (typst_doc self)) as [data|];
    [destruct (which sys (config_typst_math_typst self)) as [exe|];
     [destruct (stat g (tmpdir self)) as [[|]|];
      [|destruct (exec sys _ (tmpdir self) g) as [e|];
        [pose proof (exec_exn_os e) as (? & ? & ? & ? & ?)|]|]|]|];
    cbn [fst]; repeat split; try congruence;
    intros nodes [= <-]; eexists; reflexivity.
Qed.

(** X1: what [run] raises tells its cause.  A [TypeError] means that
    the compiler name did not resolve, a [UnicodeEncodeError] that the
    document has no encoding; [run] never raises [ValueError],
    [KeyError] or [AttributeError], since [with_suffix] accepts the
    digest as a name and a new node has its list of classes; and what
    [run] returns is a list of exactly one node. *)
Theorem run_error_causes (sys : System) (self : Directive) (f : fsmap) :
  let r := call sys self f in
  (∀ nodes, r.1 = Returned nodes → ∃ n, nodes = [n])
  ∧ (r.1 = Raised TypeError → which sys (config_typst_math_typst self) = None)
  ∧ (r.1 = Raised UnicodeEncodeError → encode (typst_doc self) = None)
  ∧ r.1 ≠ Raised ValueError
  ∧ r.1 ≠ Raised KeyError
  ∧ r.1 ≠ Raised AttributeError.
Proof.
  cbv zeta. rewrite call_cases.
  destruct (path_exists f (tmpdir self)) eqn:E.
  - apply run_from_causes.
  - rewrite (mkdir_parents_missing _ _ E).
    destruct (creatable f (tmpdir self)) eqn:Hc.
    + apply run_from_causes.
    + cbn [fst]. repeat split; congruence.
Qed.

Lemma run_from_returned (sys : System) (self : Directive) (g : fsmap)
    (pre : list event) :
  (∃ nodes, (run_from sys self g pre).1 = Returned nodes) →
  ∃ exe data,
    which sys (config_typst_math_typst self) = Some exe
    ∧ encode (typst_doc self) = Some data
    ∧ stat g (tmpdir self) = Some Dir
    ∧ exec sys
        [exe; lit "compile"; lit "-";
         path_str (filepath self data) ++ extension (builder_format self)]
        (tmpdir self) g
      = None.
Proof.
  unfold run_from.
  destruct (encode (typst_doc self)) as [data|];
    [destruct (which sys (config_typst_math_typst self)) as [exe|];
     [destruct (stat g (tmpdir self)) as [[|]|];
      [|destruct (exec sys _ (tmpdir self) g) as [e|] eqn:Ee|]|]|];
    cbn [fst]; intros [nodes Hn]; try discriminate Hn.
  exists exe, data. repeat split. exact Ee.
Qed.

(** X2: [run] returns only if the compiler name resolved, the document
    has an encoding, the cache directory was a directory already or was
    missing with no regular file on the way to it, and the operating
    system started the compiler. *)
Theorem run_returns_only_if (sys : System) (self : Directive) (f : fsmap) :
  (∃ nodes, (call sys self f).1 = Returned nodes) →
  ∃ exe data,
    which sys (config_typst_math_typst self) = Some exe
    ∧ encode (typst_doc self) = Some data
    ∧ (stat f (tmpdir self) = Some Dir
       ∨ stat f (tmpdir self) = None ∧ creatable f (tmpdir self) = true)
    ∧ starts sys self f exe data.
Proof.
  rewrite call_cases. unfold starts, prepared.
  destruct (path_exists f (tmpdir self)) eqn:E.
  - intros H. destruct (run_from_returned sys self f [] H)
      as (exe & data & Hw & He & Hd & Hx).
    exists exe, data. tauto.
  - rewrite (mkdir_parents_missing _ _ E).
    destruct (creatable f (tmpdir self)) eqn:Hc.
    + intros H. destruct (run_from_returned sys self _ _ H)
        as (exe & data & Hw & He & Hd & Hx).
      exists exe, data. split; [exact Hw|]. split; [exact He|].
      split; [|exact Hx]. right. split; [|reflexivity].
      unfold path_exists in E. destruct (stat f (tmpdir self)); congruence.
    + cbn [fst]. intros [nodes [=]].
Qed.

Lemma run_returns_only_if_witness :
  (∃ nodes, (call writing_typst pythagoras ∅).1 = Returned nodes)
  ∧ ∃ exe data,
      which writing_typst (config_typst_math_typst pythagoras) = Some exe
      ∧ encode (typst_doc pythagoras) = Some data
      ∧ starts writing_typst pythagoras ∅ exe data.
Proof.
  assert (H : ∃ nodes, (call writing_typst pythagoras ∅).1 = Returned nodes)
    by (eexists; vm_compute; reflexivity).
  split; [exact H|].
  destruct (run_returns_only_if writing_typst pythagoras ∅ H)
    as (exe & data & Hw & He & _ & Hs).
  exists exe, data. split; [exact Hw|]. split; [exact He | exact Hs].
Defined.

(** X3: a regular file on the way to a missing cache directory stops
    the call at [mkdir]: it raises [NotADirectoryError], the file system
    is as before, and [Popen] has not been called. *)
Theorem run_blocked_by_file (sys : System) (self : Directive) (f : fsmap) :
  stat f (tmpdir self) = None →
  creatable f (tmpdir self) = false →
  call sys self f
  = (Raised NotADirectoryError, World f [EvMkdir (tmpdir self)]).
Proof.
  intros Hs Hc. rewrite call_cases.
  assert (E : path_exists f (tmpdir self) = false)
    by (unfold path_exists; rewrite Hs; reflexivity).
  rewrite E, (mkdir_parents_missing _ _ E), Hc. reflexivity.
Qed.

Lemma run_blocked_by_file_witness :
  let f : fsmap := {[ [lit "srv"; lit "build"; lit "assets"] := File ]} in
  stat f (tmpdir pythagoras) = None
  ∧ creatable f (tmpdir pythagoras) = false
  ∧ call writing_typst pythagoras f
    = (Raised NotADirectoryError, World f [EvMkdir (tmpdir pythagoras)]).
Proof.
  intros f.
  assert (Hs : stat f (tmpdir pythagoras) = None) by (vm_compute; reflexivity).
  assert (Hc : creatable f (tmpdir pythagoras) = false)
    by (vm_compute; reflexivity).
  split; [exact Hs|]. split; [exact Hc|].
  exact (run_blocked_by_file writing_typst pythagoras f Hs Hc).
Defined.

(** X4: a regular file in the place of the cache directory passes the
    [exists] test, so no [mkdir] is made; the call then fails in [Popen],
    which cannot start a child in a working directory that is a file.
    It raises [NotADirectoryError], nothing reaches a compiler and the
    file system is as before. *)
Theorem run_cache_dir_is_file (sys : System) (self : Directive) (f : fsmap)
    (exe : pystr) (data : bytes) :
  stat f (tmpdir self) = Some File →
  which sys (config_typst_math_typst self) = Some exe →
  encode (typst_doc self) = Some data →
  call sys self f
  = (Raised NotADirectoryError,
     World f
       [EvPopen
          [Some exe; Some (lit "compile"); Some (lit "-");
           Some (path_str (filepath self data)
                 ++ extension (builder_format self))]
          (tmpdir self)]).
Proof.
  intros Hs Hw He. rewrite call_cases. unfold path_exists. rewrite Hs.
  unfold run_from. rewrite He, Hw, Hs. reflexivity.
Qed.

Lemma run_cache_dir_is_file_witness :
  let f : fsmap := {[ tmpdir pythagoras := File ]} in
  stat f (tmpdir pythagoras) = Some File
  ∧ (call writing_typst pythagoras f).1 = Raised NotADirectoryError
  ∧ fs (call writing_typst pythagoras f).2 = f
  ∧ made (trace (call writing_typst pythagoras f).2) = []
  ∧ communicated (trace (call writing_typst pythagoras f).2) = [].
Proof.
  intros f.
  assert (Hs : stat f (tmpdir pythagoras) = Some File)
    by (vm_compute; reflexivity).
  assert (Hw : which writing_typst (config_typst_math_typst pythagoras)
               = Some (lit "/usr/bin/typst")) by reflexivity.
  assert (He : encode (typst_doc pythagoras)
               = Some (utf8 (typst_doc pythagoras))) by reflexivity.
  rewrite (run_cache_dir_is_file writing_typst pythagoras f
             (lit "/usr/bin/typst") (utf8 (typst_doc pythagoras)) Hs Hw He).
  split; [exact Hs|]. repeat split.
Defined.

(** X5: in every call, whatever its outcome, [mkdir] is called at most
    once, [Popen] at most once and [communicate] at most once; every
    [Popen] is in the cache directory with a command of four parts, the
    resolved name (or [None]), compile, - and a path; and a compiler has
    been given input only in calls that return. *)
Theorem run_trace_shape (sys : System) (self : Directive) (f : fsmap) :
  let r := call sys self f in
  (length (made (trace r.2)) <= 1)%nat
  ∧ (∀ p, In p (made (trace r.2)) → p = tmpdir self)
  ∧ (length (spawned (trace r.2)) <= 1)%nat
  ∧ (length (communicated (trace r.2)) <= 1)%nat
  ∧ (∀ c d, In (c, d) (spawned (trace r.2)) →
       d = tmpdir self
       ∧ ∃ target, c = [which sys (config_typst_math_typst self);
                        Some (lit "compile"); Some (lit "-"); Some target])
  ∧ (communicated (trace r.2) ≠ [] → ∃ n, r.1 = Returned [n]).
Proof.
  cbv zeta. rewrite call_cases.
  assert (Hgen : ∀ g (b : bool),
    let pre := if b then [] else [EvMkdir (tmpdir self)] in
    let r := run_from sys self g pre in
    (length (made (trace r.2)) <= 1)%nat
    ∧ (∀ p, In p (made (trace r.2)) → p = tmpdir self)
    ∧ (length (spawned (trace r.2)) <= 1)%nat
    ∧ (length (communicated (trace r.2)) <= 1)%nat
    ∧ (∀ c d, In (c, d) (spawned (trace r.2)) →
         d = tmpdir self
         ∧ ∃ target, c = [which sys (config_typst_math_typst self);
                          Some (lit "compile"); Some (lit "-"); Some target])
    ∧ (communicated (trace r.2) ≠ [] → ∃ n, r.1 = Returned [n])).
  { intros g b pre r. subst r.
    destruct (run_from_trace sys self g pre)
      as (tail & -> & Hm & Hs & Hc & Hret & Hcmd).
    unfold made, spawned, communicated in *.
    rewrite !flat_map_app. fold (made tail) (spawned tail) (communicated tail).
    fold (made tail) in Hm. rewrite Hm, app_nil_r.
    assert (Hp : flat_map (λ e, match e with EvPopen c d => [(c, d)] | _ => [] end) pre = [])
      by (subst pre; destruct b; reflexivity).
    assert (Hi : flat_map (λ e, match e with EvCommunicate i _ => [i] | _ => [] end) pre = [])
      by (subst pre; destruct b; reflexivity).
    rewrite Hp, Hi. cbn [app].
    split; [subst pre; destruct b; simpl; lia|].
    split; [subst pre; destruct b; simpl; intuition congruence|].
    split; [exact Hs|]. split; [exact Hc|]. split; [exact Hcmd | exact Hret]. }
  destruct (path_exists f (tmpdir self)) eqn:E.
  - apply (Hgen f true).
  - destruct (mkdir_parents (tmpdir self) f) as [g|e].
    + apply (Hgen g false).
    + cbn. repeat split; try lia; try tauto; intuition congruence.
Qed.

Lemma run_from_fs (sys : System) (self : Directive) (g : fsmap)
    (pre : list event) :
  let r := run_from sys self g pre in
  ((∃ e, r.1 = Raised e) → fs r.2 = g)
  ∧ ((∃ nodes, r.1 = Returned nodes) →
     stat g (tmpdir self) = Some Dir
     ∧ ∃ args data, fs r.2 = (child sys args (tmpdir self) data g).1).
Proof.
  unfold run_from.
  destruct (encode (typst_doc self)) as [data|];
    [destruct (which sys (config_typst_math_typst self)) as [exe|];
     [destruct (stat g (tmpdir self)) as [[|]|];
      [|destruct (exec sys _ (tmpdir self) g)|]|]|];
    cbn [fst snd fs]; (split; [intros [e' He'] | intros [n Hn]]);
    try reflexivity; try discriminate.
  split; [reflexivity|]. eexists. eexists. reflexivity.
Qed.

(** X6: [run] itself only ever adds directories.  The file system it
    leaves when it raises, or hands to the compiler when it returns,
    holds everything the old one held, unchanged; what is new in it are
    directories on the path of the cache directory. *)
Theorem run_only_adds_directories (sys : System) (self : Directive)
    (f : fsmap) :
  let r := call sys self f in
  ∃ g : fsmap,
    f ⊆ g
    ∧ (∀ q, g !! q ≠ f !! q →
         In q (prefixes (tmpdir self)) ∧ f !! q = None ∧ g !! q = Some Dir)
    ∧ ((∃ e, r.1 = Raised e) → fs r.2 = g)
    ∧ ((∃ nodes, r.1 = Returned nodes) →
       ∃ args data, fs r.2 = (child sys args (tmpdir self) data g).1).
Proof.
  cbv zeta. rewrite call_cases.
  destruct (path_exists f (tmpdir self)) eqn:E.
  - exists f. split; [reflexivity|]. split; [congruence|].
    destruct (run_from_fs sys self f []) as [Hr Hn].
    split; [exact Hr|]. intros H. apply Hn, H.
  - unfold mkdir_parents. unfold path_exists in E.
    destruct (stat f (tmpdir self)); [discriminate|].
    destruct (makedirs (prefixes (tmpdir self)) f) as [g|e] eqn:Hm.
    + destruct (makedirs_extends _ _ _ Hm) as (Hsub & Hin & Hch).
      exists g. split; [exact Hsub|]. split.
      * intros q Hq. destruct (Hch q Hq) as [Hi Hn].
        split; [exact Hi|]. split; [exact Hn | apply Hin, Hi].
      * destruct (run_from_fs sys self g [EvMkdir (tmpdir self)]) as [Hr Hn].
        split; [exact Hr|]. intros H. apply Hn, H.
    + exists f. split; [reflexivity|]. split; [congruence|].
      cbn [fst snd fs]. split; [reflexivity|]. intros [n [=]].
Qed.

Lemma run_from_made (sys : System) (self : Directive) (g : fsmap)
    (pre : list event) :
  made (trace (run_from sys self g pre).2) = made pre.
Proof.
  destruct (run_from_trace sys self g pre) as (tail & -> & Hm & _).
  unfold made in *. rewrite flat_map_app, Hm, app_nil_r. reflexivity.
Qed.

(** X7: once a call has returned, with a compiler that removes no
    directory, the cache directory is in place: a later call for the
    same output directory, with any content, format or compiler, makes
    no [mkdir]. *)
Theorem run_prepares_once (sys sys' : System) (self self' : Directive)
    (f : fsmap) (nodes : list node) :
  keeps_dirs sys →
  (call sys self f).1 = Returned nodes →
  builder_outdir self' = builder_outdir self →
  made (trace (call sys' self' (fs (call sys self f).2)).2) = [].
Proof.
  intros Hk Hr Ho.
  assert (Ht : tmpdir self' = tmpdir self) by (unfold tmpdir; rewrite Ho; reflexivity).
  assert (Hdir : stat (fs (call sys self f).2) (tmpdir self) = Some Dir).
  { rewrite stat_lookup by apply tmpdir_nonempty.
    revert Hr. rewrite call_cases.
    destruct (path_exists f (tmpdir self)) eqn:E.
    - intros Hr. destruct (run_from_fs sys self f []) as [_ Hn].
      destruct Hn as (Hd & args & data & ->); [eexists; exact Hr|].
      apply Hk. rewrite <- stat_lookup by apply tmpdir_nonempty. exact Hd.
    - destruct (mkdir_parents (tmpdir self) f) as [g|e]; [|discriminate].
      intros Hr.
      destruct (run_from_fs sys self g [EvMkdir (tmpdir self)]) as [_ Hn].
      destruct Hn as (Hd & args & data & ->); [eexists; exact Hr|].
      apply Hk. rewrite <- stat_lookup by apply tmpdir_nonempty. exact Hd. }
  rewrite (call_cases sys' self'). rewrite Ht.
  unfold path_exists. rewrite Hdir. rewrite run_from_made. reflexivity.
Qed.

Lemma run_prepares_once_witness :
  let r := call writing_typst tight ∅ in
  (∃ nodes, r.1 = Returned nodes)
  ∧ made (trace r.2) = [tmpdir tight]
  ∧ made (trace (call failing_typst (with_format spaced (lit "pdf")) (fs r.2)).2)
    = [].
Proof.
  intros r.
  assert (Hr : r.1 = Returned
                 [image_node
                    (lit "/srv/build/assets/typst_math/9f9e8188956b090cae278c85322a0345dc743c6b.*")])
    by (vm_compute; reflexivity).
  split; [eexists; exact Hr|]. split; [vm_compute; reflexivity|].
  exact (run_prepares_once writing_typst failing_typst tight
           (with_format spaced (lit "pdf")) ∅ _
           writing_typst_keeps_dirs Hr eq_refl).
Defined.

(** X8: the content reaches [run] only through its lines joined by
    newlines.  Two directives that agree on the joined text, and on the
    configuration and the builder, behave alike on every file system:
    the same outcome, the same trace, the same files. *)
Theorem run_sees_joined_content (sys : System) (self1 self2 : Directive)
    (f : fsmap) :
  config_typst_math_typst self1 = config_typst_math_typst self2 →
  builder_outdir self1 = builder_outdir self2 →
  builder_format self1 = builder_format self2 →
  join newline (content self1) = join newline (content self2) →
  call sys self1 f = call sys self2 f.
Proof.
  destruct self1 as [c1 o1 fm1 l1], self2 as [c2 o2 fm2 l2].
  cbn [config_typst_math_typst builder_outdir builder_format content].
  intros -> -> -> Hj.
  rewrite !call_cases. unfold run_from, typst_doc, tmpdir, filepath.
  cbn [config_typst_math_typst builder_outdir builder_format content].
  rewrite Hj. reflexivity.
Qed.

Lemma run_sees_joined_content_witness :
  let one := directive (lit "html") [[97; 10; 98]%N] in
  let two := directive (lit "html") [[97%N]; [98%N]] in
  content one ≠ content two
  ∧ call writing_typst one ∅ = call writing_typst two ∅
  ∧ call writing_typst (directive (lit "pdf") []) ∅
    = call writing_typst (directive (lit "pdf") [[]]) ∅.
Proof.
  intros one two. split; [discriminate|]. split.
  - exact (run_sees_joined_content writing_typst one two ∅
             eq_refl eq_refl eq_refl eq_refl).
  - exact (run_sees_joined_content writing_typst
             (directive (lit "pdf") []) (directive (lit "pdf") [[]]) ∅
             eq_refl eq_refl eq_refl eq_refl).
Defined.

(** ** The document and its encoding *)

Lemma cut_at_separator (c : N) (a b r r' : pystr) :
  ¬ In c a → ¬ In c b → a ++ c :: r = b ++ c :: r' → a = b ∧ r = r'.
Proof.
  revert b. induction a as [|x a IH]; intros [|y b] Ha Hb E; simpl in *.
  - injection E as ->. tauto.
  - injection E as -> _. tauto.
  - injection E as -> _. tauto.
  - injection E as -> E. destruct (IH b) as [-> ->]; tauto.
Qed.

Lemma join_cons (sep x y : pystr) (rest : list pystr) :
  join sep (x :: y :: rest) = x ++ sep ++ join sep (y :: rest).
Proof. reflexivity. Qed.

Lemma join_newline_inj (l1 l2 : list pystr) :
  l1 ≠ [] → l2 ≠ [] →
  Forall (fun line => ¬ In 10%N line) l1 →
  Forall (fun line => ¬ In 10%N line) l2 →
  join newline l1 = join newline l2 → l1 = l2.
Proof.
  revert l2. induction l1 as [|x t1 IH]; intros [|y t2] H1 H2 F1 F2 E;
    try congruence.
  apply Forall_cons_iff in F1 as [Hx F1].
  apply Forall_cons_iff in F2 as [Hy F2].
  destruct t1 as [|x' t1], t2 as [|y' t2].
  - simpl in E. congruence.
  - rewrite join_cons in E. simpl in E. exfalso. apply Hx.
    rewrite E. apply in_or_app. right. left. reflexivity.
  - rewrite join_cons in E. simpl in E. exfalso. apply Hy.
    rewrite <- E. apply in_or_app. right. left. reflexivity.
  - rewrite !join_cons in E. unfold newline in E. simpl in E.
    destruct (cut_at_separator 10%N x y _ _ Hx Hy E) as [-> E'].
    f_equal. apply IH; [discriminate | discriminate | assumption | assumption |].
    exact E'.
Qed.

(** X9: with lines that hold no newline, as a directive body has them,
    and at least one line, the document determines the content: two
    contents with the same document are the same list of lines. *)
Theorem typst_doc_determines_content (self1 self2 : Directive) :
  content self1 ≠ [] → content self2 ≠ [] →
  Forall (fun line => ¬ In 10%N line) (content self1) →
  Forall (fun line => ¬ In 10%N line) (content self2) →
  typst_doc self1 = typst_doc self2 →
  content self1 = content self2.
Proof.
  intros H1 H2 F1 F2 E.
  apply join_newline_inj; try assumption.
  apply typst_doc_inj, E.
Qed.

Lemma typst_doc_determines_content_witness :
  let other := with_format tight (lit "pdf") in
  content tight ≠ []
  ∧ Forall (fun line => ¬ In 10%N line) (content tight)
  ∧ typst_doc tight = typst_doc other
  ∧ content tight = content other.
Proof.
  intros other.
  assert (F : Forall (fun line => ¬ In 10%N line) (content tight)).
  { repeat constructor. vm_compute. intuition discriminate. }
  assert (H : content tight ≠ []) by discriminate.
  assert (E : typst_doc tight = typst_doc other) by reflexivity.
  split; [exact H|]. split; [exact F|]. split; [exact E|].
  exact (typst_doc_determines_content tight other H H F F E).
Defined.

Lemma encode_char_none (c : N) :
  encode_char c = None ↔ is_scalar c = false.
Proof.
  unfold encode_char, is_scalar. cbv zeta.
  destruct (Z.ltb_spec (Z.of_N c) 128);
    [|destruct (Z.ltb_spec (Z.of_N c) 2048);
      [|destruct (Z.ltb_spec (Z.of_N c) 65536);
        [destruct (Z.leb_spec 55296 (Z.of_N c));
         destruct (Z.leb_spec (Z.of_N c) 57343)
        |destruct (Z.ltb_spec (Z.of_N c) 1114112)]]];
    destruct (N.ltb_spec c 55296); destruct (N.ltb_spec 57343 c);
    destruct (N.ltb_spec c 1114112); simpl;
    split; intros; try discriminate; try reflexivity; lia.
Qed.

Lemma forallb_false {A} (p : A → bool) (l : list A) :
  List.forallb p l = false ↔ ∃ x, In x l ∧ p x = false.
Proof.
  induction l as [|x l IH]; simpl.
  - split; [discriminate | intros (? & [] & _)].
  - destruct (p x) eqn:E; simpl.
    + rewrite IH. split.
      * intros (y & Hy & Hp). exists y. tauto.
      * intros (y & [<-|Hy] & Hp); [congruence|]. exists y. tauto.
    + split; [|reflexivity]. intros _. exists x. tauto.
Qed.

Lemma encode_none (s : pystr) :
  encode s = None ↔ List.forallb is_scalar s = false.
Proof.
  induction s as [|c s IH]; simpl; [split; discriminate|].
  destruct (encode_char c) as [b|] eqn:Ec.
  - assert (Hc : is_scalar c = true).
    { destruct (is_scalar c) eqn:E; [reflexivity|].
      apply encode_char_none in E. congruence. }
    rewrite Hc. simpl. rewrite <- IH.
    destruct (encode s); split; congruence.
  - apply encode_char_none in Ec. rewrite Ec. simpl. tauto.
Qed.

Lemma forallb_join (p : N → bool) (sep : pystr) (l : list pystr) :
  List.forallb p sep = true →
  List.forallb p (join sep l) = List.forallb (List.forallb p) l.
Proof.
  intros Hs. induction l as [|x [|y l] IH].
  - reflexivity.
  - simpl. rewrite andb_true_r. reflexivity.
  - rewrite join_cons, !forallb_app, Hs, IH. reflexivity.
Qed.

Lemma typst_doc_scalar (self : Directive) :
  List.forallb is_scalar (typst_doc self)
  = List.forallb (List.forallb is_scalar) (content self).
Proof.
  unfold typst_doc. rewrite !forallb_app.
  rewrite forallb_join by reflexivity.
  change (List.forallb is_scalar
            (lit "#set page(width: auto, height: auto, margin: 3.14pt)"))
    with true.
  change (List.forallb is_scalar newline) with true.
  change (List.forallb is_scalar (lit "$ ")) with true.
  change (List.forallb is_scalar (lit " $")) with true.
  simpl. apply andb_true_r.
Qed.

Lemma typst_doc_encoding_fails (self : Directive) :
  encode (typst_doc self) = None
  ↔ ∃ line c, In line (content self) ∧ In c line ∧ is_scalar c = false.
Proof.
  rewrite encode_none, typst_doc_scalar, forallb_false. split.
  - intros (line & Hl & Hp). apply forallb_false in Hp as (c & Hc & Hs).
    exists line, c. tauto.
  - intros (line & c & Hl & Hc & Hs). exists line. split; [exact Hl|].
    apply forallb_false. exists c. tauto.
Qed.

(** X10: the document has no encoding exactly when some line of the
    content holds a code point that is a surrogate or lies above
    0x10FFFF; the fixed text around the content never stands in the
    way. *)
Theorem typst_doc_unencodable_iff (self : Directive) :
  encode (typst_doc self) = None
  ↔ ∃ line c, In line (content self) ∧ In c line ∧ is_scalar c = false.
Proof.
  rewrite encode_none, typst_doc_scalar, forallb_false. split.
  - intros (line & Hl & Hp). apply forallb_false in Hp as (c & Hc & Hs).
    exists line, c. tauto.
  - intros (line & c & Hl & Hc & Hs). exists line. split; [exact Hl|].
    apply forallb_false. exists c. tauto.
Qed.

(** X11: a content with such a code point makes [run] raise
    [UnicodeEncodeError] at the hashing step: the cache directory has
    been made by then, and [Popen] is never called. *)
Theorem run_unencodable (sys : System) (self : Directive) (f : fsmap)
    (line : pystr) (c : N) :
  In line (content self) → In c line → is_scalar c = false →
  creatable f (tmpdir self) = true →
  let r := call sys self f in
  r.1 = Raised UnicodeEncodeError
  ∧ spawned (trace r.2) = []
  ∧ communicated (trace r.2) = []
  ∧ made (trace r.2) = (if path_exists f (tmpdir self) then [] else [tmpdir self])
  ∧ stat (fs r.2) (tmpdir self) = Some Dir.
Proof.
  intros Hl Hc Hs Hcr r. subst r.
  assert (He : encode (typst_doc self) = None).
  { apply typst_doc_encoding_fails. exists line, c. tauto. }
  rewrite (call_creatable sys self f Hcr). cbv zeta. rewrite He.
  cbn [fst snd fs trace].
  split; [reflexivity|].
  split; [destruct (path_exists f (tmpdir self)); reflexivity|].
  split; [destruct (path_exists f (tmpdir self)); reflexivity|].
  split; [destruct (path_exists f (tmpdir self)); reflexivity|].
  apply prepared_is_dir; [apply tmpdir_nonempty | exact Hcr].
Qed.

Lemma run_unencodable_witness :
  let broken := directive (lit "html") [lit "x = "; [0xD800%N]] in
  is_scalar 0xD800%N = false
  ∧ creatable ∅ (tmpdir broken) = true
  ∧ (call writing_typst broken ∅).1 = Raised UnicodeEncodeError
  ∧ spawned (trace (call writing_typst broken ∅).2) = []
  ∧ made (trace (call writing_typst broken ∅).2) = [tmpdir broken].
Proof.
  intros broken.
  assert (Hl : In [0xD800%N] (content broken)) by (right; left; reflexivity).
  assert (Hc : In 0xD800%N [0xD800%N]) by (left; reflexivity).
  assert (Hs : is_scalar 0xD800%N = false) by reflexivity.
  assert (Hcr : creatable ∅ (tmpdir broken) = true) by reflexivity.
  destruct (run_unencodable writing_typst broken ∅ _ _ Hl Hc Hs Hcr)
    as (Hr & Hsp & _ & Hm & _).
  split; [exact Hs|]. split; [exact Hcr|]. split; [exact Hr|].
  split; [exact Hsp | exact Hm].
Defined.

(** ** The file name *)

Lemma hex_digit_is_hex (d : Z) : 0 <= d < 16 → is_hex (SHA1.hex_digit d) = true.
Proof.
  intros Hd. unfold is_hex, SHA1.hex_digit.
  destruct (Z.ltb_spec d 10).
  - apply orb_true_iff. left. apply andb_true_iff.
    split; apply N.leb_le; lia.
  - apply orb_true_iff. right. apply andb_true_iff.
    split; apply N.leb_le; lia.
Qed.

Lemma hex_byte_is_hex (b : Z) : List.forallb is_hex (SHA1.hex_byte b) = true.
Proof.
  unfold SHA1.hex_byte. cbn [List.forallb].
  rewrite !hex_digit_is_hex by (apply Z.mod_pos_bound; lia). reflexivity.
Qed.

Lemma forallb_concat {A} (p : A → bool) (ls : list (list A)) :
  (∀ l, In l ls → List.forallb p l = true) →
  List.forallb p (List.concat ls) = true.
Proof.
  induction ls as [|l ls IH]; intros H; simpl; [reflexivity|].
  rewrite forallb_app, H by (left; reflexivity). simpl.
  apply IH. intros l' Hl. apply H. right. exact Hl.
Qed.

(** X12: whatever the content, the file name is forty characters, each
    one of 0-9 and a-f: no dot, no slash, nothing of the content itself
    gets into the name. *)
Theorem filename_is_hex (data : bytes) :
  length (filename data) = 40%nat
  ∧ List.forallb is_hex (filename data) = true.
Proof.
  split; [apply hexdigest_length|].
  unfold filename, SHA1.hexdigest. apply forallb_concat.
  intros l Hl. apply in_map_iff in Hl as (b & <- & _).
  apply hex_byte_is_hex.
Qed.

(** X13: for each of the four suffixes that [run] uses, [with_suffix]
    on the file path does not raise and keeps the whole digest: the
    result lies in the cache directory and is named digest plus
    suffix. *)
Theorem with_suffix_keeps_digest (self : Directive) (data : bytes)
    (suf : pystr) :
  In suf [lit ".svg"; lit ".pdf"; lit ".png"; lit ".*"] →
  with_suffix (filepath self data) suf
  = Returned (tmpdir self / (SHA1.hexdigest data ++ suf))%path
  ∧ path_str (tmpdir self / (SHA1.hexdigest data ++ suf))%path
    = path_str (tmpdir self) ++ lit "/" ++ SHA1.hexdigest data ++ suf.
Proof.
  intros Hs. split.
  - destruct Hs as [<-|[<-|[<-|[<-|[]]]]];
      apply with_suffix_filepath; reflexivity.
  - rewrite path_str_truediv by apply tmpdir_nonempty. reflexivity.
Qed.

Lemma with_suffix_keeps_digest_witness :
  In (lit ".*") [lit ".svg"; lit ".pdf"; lit ".png"; lit ".*"]
  ∧ with_suffix (filepath pythagoras (utf8 (typst_doc pythagoras))) (lit ".*")
    = Returned
        [lit "srv"; lit "build"; lit "assets"; lit "typst_math";
         lit "a532776cccd0dc5594a3b6ac1d74eff710bc2762.*"].
Proof.
  assert (H : In (lit ".*") [lit ".svg"; lit ".pdf"; lit ".png"; lit ".*"])
    by (right; right; right; left; reflexivity).
  split; [exact H|].
  destruct (with_suffix_keeps_digest pythagoras
              (utf8 (typst_doc pythagoras)) (lit ".*") H) as [-> _].
  vm_compute. reflexivity.
Defined.

(** ** The SHA-1 model *)

Lemma be_bytes_length (n : nat) (x : Z) : length (SHA1.be_bytes n x) = n.
Proof. induction n; simpl; [reflexivity | f_equal; exact IHn]. Qed.

Lemma pad_length (msg : bytes) :
  ∃ k : nat, length (SHA1.pad msg) = (64 * k)%nat
             ∧ (length msg + 9 <= 64 * k < length msg + 73)%nat.
Proof.
  unfold SHA1.pad. rewrite !List.length_app, List.repeat_length, be_bytes_length.
  cbn [length].
  pose proof (Z.mod_pos_bound (55 - Z.of_nat (length msg)) 64 ltac:(lia)) as Hb.
  pose proof (Z.div_mod (55 - Z.of_nat (length msg)) 64 ltac:(lia)) as Hd.
  set (m := (55 - Z.of_nat (length msg)) mod 64) in *.
  set (q := (55 - Z.of_nat (length msg)) / 64) in *.
  exists (Z.to_nat (1 - q)). lia.
Qed.

Lemma words_length (bs : bytes) (k : nat) :
  length bs = (4 * k)%nat → length (SHA1.words bs) = k.
Proof.
  revert bs. induction k as [|k IH]; intros bs H.
  - destruct bs; [reflexivity | simpl in H; lia].
  - destruct bs as [|b0 [|b1 [|b2 [|b3 rest]]]]; simpl in H; try lia.
    simpl. f_equal. apply IH. lia.
Qed.

Lemma blocks_whole (k fuel : nat) (ws : list Z) :
  length ws = (16 * k)%nat → (k <= fuel)%nat →
  List.concat (SHA1.blocks fuel ws) = ws
  ∧ length (SHA1.blocks fuel ws) = k
  ∧ Forall (fun b => length b = 16%nat) (SHA1.blocks fuel ws).
Proof.
  revert fuel ws. induction k as [|k IH]; intros fuel ws Hl Hf.
  - destruct ws; [|simpl in Hl; lia].
    destruct fuel; simpl; repeat split; constructor.
  - destruct fuel as [|fuel]; [lia|].
    destruct ws as [|w ws]; [simpl in Hl; lia|].
    cbn [SHA1.blocks].
    destruct (IH fuel (List.skipn 16 (w :: ws))) as (Hc & Hn & Ha).
    { rewrite List.length_skipn. lia. }
    { lia. }
    split; [|split].
    + cbn [List.concat]. rewrite Hc. apply List.firstn_skipn.
    + cbn [length]. rewrite Hn. reflexivity.
    + constructor; [|exact Ha]. rewrite List.length_firstn. lia.
Qed.

(** X14: the SHA-1 model hashes all of the message.  The padded message
    is a whole number of 64-byte blocks, at least one, and the blocks
    that are compressed are sixteen words each and put together give
    back every word of it. *)
Theorem sha1_blocks_cover_message (msg : bytes) :
  let ws := SHA1.words (SHA1.pad msg) in
  ∃ k : nat,
    (1 <= k)%nat
    ∧ length (SHA1.pad msg) = (64 * k)%nat
    ∧ length ws = (16 * k)%nat
    ∧ length (SHA1.blocks (length ws) ws) = k
    ∧ List.concat (SHA1.blocks (length ws) ws) = ws
    ∧ Forall (fun b => length b = 16%nat) (SHA1.blocks (length ws) ws)
    ∧ List.firstn (length msg) (SHA1.pad msg) = msg.
Proof.
  intros ws. destruct (pad_length msg) as (k & Hk & Hr).
  assert (Hw : length ws = (16 * k)%nat)
    by (apply words_length; rewrite Hk; lia).
  destruct (blocks_whole k (length ws) ws Hw) as (Hc & Hn & Ha); [lia|].
  exists k. split; [lia|]. split; [exact Hk|]. split; [exact Hw|].
  split; [exact Hn|]. split; [exact Hc|]. split; [exact Ha|].
  unfold SHA1.pad. rewrite List.firstn_app, Nat.sub_diag, List.firstn_all.
  simpl. apply app_nil_r.
Qed.

(** ** UTF-8 *)

Ltac divlia := Z.div_mod_to_equations; lia.

Lemma lor_high (h k y : Z) :
  0 <= k → 0 <= y < 2 ^ k → Z.lor (h * 2 ^ k) y = h * 2 ^ k + y.
Proof.
  intros Hk Hy.
  assert (Hl : Z.land (h * 2 ^ k) y = 0).
  { apply Z.bits_inj'. intros n Hn.
    rewrite Z.land_spec, Z.bits_0, <- Z.shiftl_mul_pow2 by exact Hk.
    destruct (Z.lt_ge_cases n k).
    - rewrite Z.shiftl_spec_low by assumption. reflexivity.
    - rewrite <- (Z.mod_small y (2 ^ k)) by exact Hy.
      rewrite Z.mod_pow2_bits_high by lia. apply andb_false_r. }
  rewrite <- Z.lxor_lor by exact Hl.
  symmetry. apply Z.add_nocarry_lxor, Hl.
Qed.

Lemma low_six (x : Z) : Z.land x 0x3F = x mod 64.
Proof. exact (Z.land_ones x 6 ltac:(lia)). Qed.

Lemma continuation (x : Z) : Z.lor 0x80 (Z.land x 0x3F) = 128 + x mod 64.
Proof.
  rewrite low_six. apply (lor_high 2 6); [lia|].
  apply Z.mod_pos_bound. lia.
Qed.

(** The bytes of a code point, as arithmetic. *)
Lemma encode_char_bytes (c : N) (b : bytes) :
  encode_char c = Some b →
  let z := Z.of_N c in
  (z < 128 ∧ b = [z])
  ∨ (128 <= z < 2048 ∧ b = [192 + z / 64; 128 + z mod 64])
  ∨ (2048 <= z < 65536
     ∧ b = [224 + z / 4096; 128 + (z / 64) mod 64; 128 + z mod 64])
  ∨ (65536 <= z < 1114112
     ∧ b = [240 + z / 262144; 128 + (z / 4096) mod 64;
            128 + (z / 64) mod 64; 128 + z mod 64]).
Proof.
  unfold encode_char. cbv zeta.
  pose proof (N2Z.is_nonneg c) as Hc.
  destruct (Z.ltb_spec (Z.of_N c) 128); [intros [= <-]; tauto|].
  destruct (Z.ltb_spec (Z.of_N c) 2048).
  { intros [= <-]. right. left. split; [lia|].
    rewrite continuation, Z.shiftr_div_pow2 by lia.
    rewrite (lor_high 3 6) by (change (2 ^ 6) with 64; divlia).
    reflexivity. }
  destruct (Z.ltb_spec (Z.of_N c) 65536).
  { destruct ((55296 <=? Z.of_N c) && (Z.of_N c <=? 57343)); [discriminate|].
    intros [= <-]. right. right. left. split; [lia|].
    rewrite !continuation, !Z.shiftr_div_pow2 by lia.
    rewrite (lor_high 14 4) by (change (2 ^ 4) with 16; change (2 ^ 12) with 4096; divlia).
    reflexivity. }
  destruct (Z.ltb_spec (Z.of_N c) 1114112); [|discriminate].
  intros [= <-]. right. right. right. split; [lia|].
  rewrite !continuation, !Z.shiftr_div_pow2 by lia.
  rewrite (lor_high 30 3) by (change (2 ^ 3) with 8; change (2 ^ 18) with 262144; divlia).
  reflexivity.
Qed.

Lemma encode_char_prefix (c1 c2 : N) (b1 b2 r1 r2 : bytes) :
  encode_char c1 = Some b1 → encode_char c2 = Some b2 →
  b1 ++ r1 = b2 ++ r2 → c1 = c2.
Proof.
  intros H1 H2 E. apply N2Z.inj.
  apply encode_char_bytes in H1. apply encode_char_bytes in H2.
  cbv zeta in H1, H2.
  destruct H1 as [[? ->]|[[? ->]|[[? ->]|[? ->]]]];
    destruct H2 as [[? ->]|[[? ->]|[[? ->]|[? ->]]]];
    cbn [app] in E; injection E; intros; divlia.
Qed.

Lemma encode_char_nonempty (c : N) (b : bytes) :
  encode_char c = Some b → b ≠ [].
Proof.
  intros H. apply encode_char_bytes in H. cbv zeta in H.
  destruct H as [[? ->]|[[? ->]|[[? ->]|[? ->]]]]; discriminate.
Qed.

Lemma encode_inj (s1 s2 : pystr) (d : bytes) :
  encode s1 = Some d → encode s2 = Some d → s1 = s2.
Proof.
  revert s2 d. induction s1 as [|c1 s1 IH]; intros [|c2 s2] d; simpl.
  - reflexivity.
  - intros [= <-]. destruct (encode_char c2) as [b|] eqn:Ec; [|discriminate].
    destruct (encode s2); [|discriminate]. intros [= E].
    apply app_eq_nil in E as [E _].
    exfalso. exact (encode_char_nonempty c2 b Ec E).
  - destruct (encode_char c1) as [b|] eqn:Ec; [|discriminate].
    destruct (encode s1); [|discriminate]. intros [= <-] [= E].
    symmetry in E. apply app_eq_nil in E as [E _].
    exfalso. exact (encode_char_nonempty c1 b Ec E).
  - destruct (encode_char c1) as [b1|] eqn:E1; [|discriminate].
    destruct (encode s1) as [d1|] eqn:Es1; [|discriminate].
    destruct (encode_char c2) as [b2|] eqn:E2; [|discriminate].
    destruct (encode s2) as [d2|] eqn:Es2; [|discriminate].
    intros [= <-] [= E].
    assert (c2 = c1) as -> by exact (encode_char_prefix c2 c1 b2 b1 d2 d1 E2 E1 E).
    assert (b2 = b1) as -> by congruence.
    apply app_inv_head in E as ->.
    f_equal. exact (IH s2 d1 eq_refl Es2).
Qed.

(** X15: encoding loses nothing.  Two directives whose joined content
    lines differ, in white space or anywhere else, have different bytes
    hashed and different bytes sent to the compiler. *)
Theorem encoded_documents_differ (self1 self2 : Directive)
    (data1 data2 : bytes) :
  encode (typst_doc self1) = Some data1 →
  encode (typst_doc self2) = Some data2 →
  join newline (content self1) ≠ join newline (content self2) →
  data1 ≠ data2.
Proof.
  intros H1 H2 Hne E. subst data2. apply Hne, typst_doc_inj.
  exact (encode_inj _ _ _ H1 H2).
Qed.

Lemma encoded_documents_differ_witness :
  join newline (content tight) ≠ join newline (content spaced)
  ∧ utf8 (typst_doc tight) ≠ utf8 (typst_doc spaced).
Proof.
  assert (Hne : join newline (content tight) ≠ join newline (content spaced))
    by (vm_compute; discriminate).
  split; [exact Hne|].
  exact (encoded_documents_differ tight spaced
           (utf8 (typst_doc tight)) (utf8 (typst_doc spaced))
           eq_refl eq_refl Hne).
Defined.

(** X16: what [encode] returns are bytes: every element lies in the
    range 0..255, and each code point has taken between one and four
    of them. *)
Theorem encode_yields_bytes (s : pystr) (d : bytes) :
  encode s = Some d →
  Forall (fun b => 0 <= b < 256) d
  ∧ (length s <= length d <= 4 * length s)%nat.
Proof.
  revert d. induction s as [|c s IH]; intros d; simpl.
  - intros [= <-]. split; [constructor | simpl; lia].
  - destruct (encode_char c) as [b|] eqn:Ec; [|discriminate].
    destruct (encode s) as [d'|]; [|discriminate]. intros [= <-].
    destruct (IH d' eq_refl) as [Hb Hl].
    apply encode_char_bytes in Ec. cbv zeta in Ec.
    pose proof (N2Z.is_nonneg c) as Hc.
    rewrite List.length_app. split.
    + apply Forall_app. split; [|exact Hb].
      destruct Ec as [[? ->]|[[? ->]|[[? ->]|[? ->]]]];
        repeat constructor; divlia.
    + destruct Ec as [[? ->]|[[? ->]|[[? ->]|[? ->]]]]; simpl; lia.
Qed.

Lemma encode_yields_bytes_witness :
  let s := [0x3B1; 0x20AC; 0x1D400]%N in
  encode s = Some [206; 177; 226; 130; 172; 240; 157; 144; 128]
  ∧ Forall (fun b => 0 <= b < 256)
           [206; 177; 226; 130; 172; 240; 157; 144; 128].
Proof.
  intros s.
  assert (H : encode s = Some [206; 177; 226; 130; 172; 240; 157; 144; 128])
    by reflexivity.
  split; [exact H|].
  exact (proj1 (encode_yields_bytes s _ H)).
Defined.

(** ** [setup] *)

(** X17: on an application where the name typst_math_typst is free,
    [setup] returns its metadata, version 0.1.0-dev and safe for
    parallel reading and writing, and leaves the directive typst-math
    registered with the class whose [run] is modelled above and the
    configuration value typst_math_typst registered with the default
    typst and the rebuild scope env; every other directive and
    configuration value is as before. *)
Theorem setup_registers (app : Sphinx) :
  config_values app !! "typst_math_typst"%string = None →
  let r := setup app in
  r.2 = Some {| version := "0.1.0-dev";
                parallel_read_safe := true;
                parallel_write_safe := true |}
  ∧ directives r.1 !! "typst-math"%string = Some TypstMathDirective
  ∧ run_method TypstMathDirective = run
  ∧ config_values r.1 !! "typst_math_typst"%string
    = Some (ConfigValue (lit "typst") "env")
  ∧ (∀ name, name ≠ "typst-math"%string →
       directives r.1 !! name = directives app !! name)
  ∧ (∀ name, name ≠ "typst_math_typst"%string →
       config_values r.1 !! name = config_values app !! name).
Proof.
  intros Hfree r. subst r. unfold setup, add_config_value, add_directive.
  cbn [config_values directives]. rewrite Hfree. cbn [fst snd config_values directives].
  split; [reflexivity|]. split; [apply lookup_insert_eq|].
  split; [reflexivity|]. split; [apply lookup_insert_eq|].
  split; intros name Hne; apply lookup_insert_ne; congruence.
Qed.

Lemma setup_registers_witness :
  config_values fresh_app !! "typst_math_typst"%string = None
  ∧ directives (setup fresh_app).1 !! "typst-math"%string
    = Some TypstMathDirective
  ∧ cv_default <$> config_values (setup fresh_app).1 !! "typst_math_typst"%string
    = Some (lit "typst").
Proof.
  assert (H : config_values fresh_app !! "typst_math_typst"%string = None)
    by reflexivity.
  destruct (setup_registers fresh_app H) as (_ & Hd & _ & Hc & _).
  split; [exact H|]. split; [exact Hd|]. rewrite Hc. reflexivity.
Defined.

(** X18: when the name typst_math_typst is registered already,
    [setup] fails in [add_config_value] and returns no metadata; by
    then it has registered the directive, and the configuration values
    are left as they were. *)
Theorem setup_name_taken (app : Sphinx) (cv : config_value) :
  config_values app !! "typst_math_typst"%string = Some cv →
  let r := setup app in
  r.2 = None
  ∧ directives r.1 !! "typst-math"%string = Some TypstMathDirective
  ∧ config_values r.1 = config_values app.
Proof.
  intros Htaken r. subst r. unfold setup, add_config_value, add_directive.
  cbn [config_values directives]. rewrite Htaken. cbn [fst snd config_values directives].
  split; [reflexivity|]. split; [apply lookup_insert_eq | reflexivity].
Qed.

Lemma setup_name_taken_witness :
  config_values taken_app !! "typst_math_typst"%string
    = Some (ConfigValue (lit "tinymist") "html")
  ∧ (setup taken_app).2 = None
  ∧ (setup (setup fresh_app).1).2 = None.
Proof.
  assert (H : config_values taken_app !! "typst_math_typst"%string
              = Some (ConfigValue (lit "tinymist") "html")) by reflexivity.
  destruct (setup_name_taken taken_app _ H) as (Hr & _).
  split; [exact H|]. split; [exact Hr|]. reflexivity.
Defined.

(** ** A compiler that does not start *)

(** X19: when the compiler name resolves but the operating system does
    not start the program, as with a relative result of [which] that is
    looked up under the cache directory, [run] raises the error out of
    [Popen]: no node is returned, nothing is handed to [communicate],
    and the file system is as the [mkdir] step left it. *)
Theorem run_compiler_not_started (sys : System) (self : Directive)
    (f : fsmap) (exe : pystr) (data : bytes) (e : exec_error) :
  which sys (config_typst_math_typst self) = Some exe →
  encode (typst_doc self) = Some data →
  creatable f (tmpdir self) = true →
  exec sys
    [exe; lit "compile"; lit "-";
     path_str (filepath self data) ++ extension (builder_format self)]
    (tmpdir self) (prepared f (tmpdir self))
  = Some e →
  let r := call sys self f in
  r.1 = Raised (exec_exn e)
  ∧ spawned (trace r.2)
    = [([Some exe; Some (lit "compile"); Some (lit "-");
         Some (path_str (filepath self data)
               ++ extension (builder_format self))], tmpdir self)]
  ∧ communicated (trace r.2) = []
  ∧ fs r.2 = prepared f (tmpdir self).
Proof.
  intros Hw He Hc Hx r. subst r.
  rewrite (call_not_started sys self f exe data e Hw He Hc Hx). cbv zeta.
  cbn [fst snd fs trace].
  rewrite spawned_after_mkdir, communicated_after_mkdir.
  repeat split.
Qed.

Lemma run_compiler_not_started_witness :
  which relative_typst (config_typst_math_typst pythagoras)
    = Some (lit "bin/typst")
  ∧ creatable ∅ (tmpdir pythagoras) = true
  ∧ (call relative_typst pythagoras ∅).1 = Raised FileNotFoundError
  ∧ communicated (trace (call relative_typst pythagoras ∅).2) = []
  ∧ made (trace (call relative_typst pythagoras ∅).2) = [tmpdir pythagoras].
Proof.
  assert (Hw : which relative_typst (config_typst_math_typst pythagoras)
               = Some (lit "bin/typst")) by reflexivity.
  assert (He : encode (typst_doc pythagoras)
               = Some (utf8 (typst_doc pythagoras))) by reflexivity.
  assert (Hc : creatable ∅ (tmpdir pythagoras) = true) by reflexivity.
  assert (Hx : exec relative_typst
                 [lit "bin/typst"; lit "compile"; lit "-";
                  path_str (filepath pythagoras (utf8 (typst_doc pythagoras)))
                  ++ extension (builder_format pythagoras)]
                 (tmpdir pythagoras) (prepared ∅ (tmpdir pythagoras))
               = Some ENOENT) by (vm_compute; reflexivity).
  destruct (run_compiler_not_started relative_typst pythagoras ∅
              (lit "bin/typst") (utf8 (typst_doc pythagoras)) ENOENT
              Hw He Hc Hx) as (Hr & _ & Hi & _).
  split; [exact Hw|]. split; [exact Hc|]. split; [exact Hr|].
  split; [exact Hi|]. vm_compute. reflexivity.
Defined.
